(** * storagefancontrol: a shallow embedding of the fan controller

    The program samples the temperature of every storage device, feeds the
    hottest one to a discrete PID controller and drives the chassis fans
    through [ipmitool].  This file embeds [storagefancontrol.py] class by
    class ([PID], [Smart], [FanControl], [main]) and proves the properties
    of the control law, of the sampling pass and of the actuation policy.

    Conventions of the embedding.
    - Python [int] is [Z].  Every number read from the configuration goes
      through [config.getint], and temperatures through [int(...)], so the
      controller state, the temperatures and the PID output are integers.
    - Python [float] appears in two places.  [set_fan_speed] multiplies by
      [float(pwm_max) / 100]; the rounding of that product decides the code
      sent to the fans, so it is computed in binary64 ([SpecFloat]).
      [set_pwm] halves an integer with [/]; that quotient and its comparison
      with [20] are exact, so it is kept as a rational ([Q]).
    - Python [str] is [string]; the texts handled are ASCII.
    - A statement that can raise returns an [outcome]: the state reached and
      either a value or the exception raised. *)

From Stdlib Require Import ZArith QArith List String Ascii Bool Lia.
From Stdlib Require Import SpecFloat DecimalString Permutation.
From Stdlib Require DecimalPos.
Import ListNotations.

#[local] Open Scope string_scope.
#[local] Open Scope Z_scope.

(** ** Exceptions and outcomes *)

(** The exceptions the program raises or lets escape. *)
Inductive exn : Type :=
| SystemExit (code : Z)
| KeyboardInterrupt
| IndexError
| ValueError
| OverflowError.

(** A computation without state: a value, or an exception. *)
Inductive result (A : Type) : Type :=
| Ok (a : A)
| Raise (e : exn).
Arguments Ok {A} a.
Arguments Raise {A} e.

Definition rbind {A B : Type} (r : result A) (k : A -> result B) : result B :=
  match r with
  | Ok a => k a
  | Raise e => Raise e
  end.

Notation "x <- r ;; k" := (rbind r (fun x => k))
  (at level 61, r at next level, right associativity).

(** Python's [try: a except: b] with a bare [except]. *)
Definition try_except {A : Type} (a b : result A) : result A :=
  match a with
  | Ok v => Ok v
  | Raise _ => b
  end.

(** ** class PID *)

Module PID.

(** The attributes of a [PID] object.  [P_value], [I_value] and [D_value]
    do not exist before the first [update]. *)
Record t : Type := mk {
  Kp : Z;
  Ki : Z;
  Kd : Z;
  Derivator : Z;
  Integrator : Z;
  Integrator_max : Z;
  Integrator_min : Z;
  set_point : Z;
  error : Z;
  P_value : option Z;
  I_value : option Z;
  D_value : option Z
}.

(** [PID.__init__] *)
Definition init (P I D Derivator Integrator Integrator_max Integrator_min : Z) : t :=
  {| Kp := P; Ki := I; Kd := D;
     Derivator := Derivator;
     Integrator := Integrator;
     Integrator_max := Integrator_max;
     Integrator_min := Integrator_min;
     set_point := 0;
     error := 0;
     P_value := None; I_value := None; D_value := None |}.

(** [PID.set_target_value] *)
Definition set_target_value (self : t) (point : Z) : t :=
  {| Kp := Kp self; Ki := Ki self; Kd := Kd self;
     Derivator := Derivator self;
     Integrator := Integrator self;
     Integrator_max := Integrator_max self;
     Integrator_min := Integrator_min self;
     set_point := point;
     error := error self;
     P_value := P_value self; I_value := I_value self; D_value := D_value self |}.

(** [PID.update]: the assignments of the method, in order.  [int(set_point)]
    is the identity on an integer set point. *)
Definition update (self : t) (current_value : Z) : t * Z :=
  let error := current_value - set_point self in
  let P_value := Kp self * error in
  let D_value := Kd self * (error + Derivator self) in
  let Derivator := error in
  let Integrator := Integrator self + error in
  let Integrator :=
    if Integrator >? Integrator_max self then Integrator_max self
    else if Integrator <? Integrator_min self then Integrator_min self
    else Integrator in
  let I_value := Integrator * Ki self in
  let PID := P_value + I_value + D_value in
  ({| Kp := Kp self; Ki := Ki self; Kd := Kd self;
      Derivator := Derivator;
      Integrator := Integrator;
      Integrator_max := Integrator_max self;
      Integrator_min := Integrator_min self;
      set_point := set_point self;
      error := error;
      P_value := Some P_value; I_value := Some I_value; D_value := Some D_value |},
   PID).

(** The controller after a sequence of calls to [update], oldest first. *)
Definition run (self : t) (inputs : list Z) : t :=
  fold_left (fun s x => fst (update s x)) inputs self.

(** The step as the specification words it: the accumulated error is
    clamped into the interval of the two bounds. *)
Definition clamp (x lo hi : Z) : Z := Z.max lo (Z.min x hi).

Record spec_step : Type := mk_spec {
  s_error : Z;
  s_P_term : Z;
  s_D_term : Z;
  s_derivator : Z;
  s_integrator : Z;
  s_I_term : Z;
  s_output : Z
}.

Definition spec_update (self : t) (currentValue : Z) : spec_step :=
  let error := currentValue - set_point self in
  let P_term := Kp self * error in
  let D_term := Kd self * (error + Derivator self) in
  let derivator := error in
  let integrator :=
    clamp (Integrator self + error) (Integrator_min self) (Integrator_max self) in
  let I_term := Ki self * integrator in
  {| s_error := error; s_P_term := P_term; s_D_term := D_term;
     s_derivator := derivator; s_integrator := integrator;
     s_I_term := I_term; s_output := P_term + I_term + D_term |}.

(** What [update] leaves in the object and returns, in the shape of a
    specification step. *)
Definition observed (self : t) (current_value : Z) : option spec_step :=
  let '(self', out) := update self current_value in
  match P_value self', I_value self', D_value self' with
  | Some p, Some i, Some d =>
      Some {| s_error := error self'; s_P_term := p; s_D_term := d;
              s_derivator := Derivator self'; s_integrator := Integrator self';
              s_I_term := i; s_output := out |}
  | _, _, _ => None
  end.

End PID.

(** ** Python values and built-ins used by the program *)

(** The objects that flow through a variable of changing type:
    [get_parameter_from_smart] returns a [str] or the integer [0], and
    [raw_rear] in [set_pwm] is an [int], the [float] quotient [value / 2]
    or the string ["00"]. *)
Inductive pyval : Type :=
| PyInt (z : Z)
| PyFloat (q : Q)
| PyStr (s : string).

(** [str(n)] for an integer. *)
Definition str_of_Z (n : Z) : string := NilZero.string_of_int (Z.to_int n).

(** [str(x)] for the float [k / 2]: the integral part, a point and one
    decimal ([str(15.0) = "15.0"], [str(19.5) = "19.5"]). *)
Definition str_of_half (q : Q) : string :=
  let twice := (2 * Qnum q) / Z.pos (Qden q) in
  let body := str_of_Z (Z.abs twice / 2) ++ "." ++ (if Z.even twice then "0" else "5") in
  if twice <? 0 then "-" ++ body else body.

Definition py_str (v : pyval) : string :=
  match v with
  | PyInt z => str_of_Z z
  | PyFloat q => str_of_half q
  | PyStr s => s
  end.

(** [v < n] for an integer literal [n]; a string never reaches it. *)
Definition py_lt (v : pyval) (n : Z) : bool :=
  match v with
  | PyInt z => z <? n
  | PyFloat q => negb (Qle_bool (inject_Z n) q)
  | PyStr _ => false
  end.

(** The characters [int()] skips around a number ([Py_ISSPACE]). *)
Definition is_space (c : ascii) : bool :=
  let n := nat_of_ascii c in
  ((9 <=? n)%nat && (n <=? 13)%nat) || (n =? 32)%nat.

Definition digit_of (c : ascii) : option Z :=
  let n := nat_of_ascii c in
  if ((48 <=? n)%nat && (n <=? 57)%nat) then Some (Z.of_nat n - 48) else None.

Fixpoint lstrip (s : string) : string :=
  match s with
  | String c s' => if is_space c then lstrip s' else s
  | EmptyString => EmptyString
  end.

Fixpoint rstrip (s : string) : string :=
  match s with
  | String c s' =>
      match rstrip s' with
      | EmptyString => if is_space c then EmptyString else String c EmptyString
      | r => String c r
      end
  | EmptyString => EmptyString
  end.

(** Decimal digits, with single underscores allowed between two digits. *)
Fixpoint parse_digits (s : string) (acc : Z) (after_digit : bool) : option Z :=
  match s with
  | EmptyString => if after_digit then Some acc else None
  | String c s' =>
      match digit_of c with
      | Some d => parse_digits s' (10 * acc + d) true
      | None =>
          if (Ascii.eqb c "_" && after_digit)%bool then parse_digits s' acc false
          else None
      end
  end.

(** [int(s)] for a string, in base ten. *)
Definition int_of_str (s : string) : result Z :=
  let body := rstrip (lstrip s) in
  let parsed :=
    match body with
    | String "-" s' => option_map Z.opp (parse_digits s' 0 false)
    | String "+" s' => parse_digits s' 0 false
    | _ => parse_digits body 0 false
    end in
  match parsed with
  | Some z => Ok z
  | None => Raise ValueError
  end.

(** [int(v)] *)
Definition py_int (v : pyval) : result Z :=
  match v with
  | PyInt z => Ok z
  | PyFloat q => Ok (Z.quot (Qnum q) (Z.pos (Qden q)))
  | PyStr s => int_of_str s
  end.

(** [l[i]], with Python's negative indices. *)
Definition py_index {A : Type} (l : list A) (i : Z) : result A :=
  let n := Z.of_nat (List.length l) in
  let j := if i <? 0 then i + n else i in
  if (j <? 0) || (n <=? j) then Raise IndexError
  else match nth_error l (Z.to_nat j) with
       | Some a => Ok a
       | None => Raise IndexError
       end.

(** [s.split(sep)] for a non-empty separator: the pieces between the
    occurrences of [sep], found from left to right without overlap.
    [skip] counts the characters of a matched separator still to drop and
    [cur] is the piece being read. *)
Fixpoint split_from (sep s : string) (skip : nat) (cur : string) : list string :=
  match s with
  | EmptyString => [cur]
  | String c s' =>
      match skip with
      | S k => split_from sep s' k cur
      | O =>
          if String.prefix sep s
          then cur :: split_from sep s' (String.length sep - 1) EmptyString
          else split_from sep s' O (cur ++ String c EmptyString)
      end
  end.

Definition str_split (s sep : string) : list string := split_from sep s O EmptyString.

(** [s.split()]: the maximal runs of characters that are not white space. *)
Fixpoint split_ws_from (s cur : string) : list string :=
  match s with
  | EmptyString => match cur with EmptyString => [] | _ => [cur] end
  | String c s' =>
      if is_space c
      then match cur with
           | EmptyString => split_ws_from s' EmptyString
           | _ => cur :: split_ws_from s' EmptyString
           end
      else split_ws_from s' (cur ++ String c EmptyString)
  end.

Definition split_ws (s : string) : list string := split_ws_from s EmptyString.

(** A text without white space. *)
Fixpoint no_space (s : string) : bool :=
  match s with
  | EmptyString => true
  | String c s' => negb (is_space c) && no_space s'
  end.

(** The first group of the search for [parameter] followed by a group that
    takes any characters but a newline, for a [parameter] without
    regular-expression operators: the text that follows the first
    occurrence of [parameter], up to the end of its line. *)
Fixpoint until_newline (s : string) : string :=
  match s with
  | EmptyString => EmptyString
  | String c s' => if Ascii.eqb c "010" then EmptyString else String c (until_newline s')
  end.

Fixpoint drop (n : nat) (s : string) : string :=
  match n, s with
  | O, _ => s
  | S _, EmptyString => EmptyString
  | S k, String _ s' => drop k s'
  end.

Fixpoint search_group (parameter data : string) : option string :=
  if String.prefix parameter data
  then Some (until_newline (drop (String.length parameter) data))
  else match data with
       | EmptyString => None
       | String _ data' => search_group parameter data'
       end.

(** [b.splitlines()] for the bytes a utility prints: the lines end at a
    line feed, a carriage return or the pair of both; no empty line is
    reported after the last line end. *)
Fixpoint splitlines_from (s cur : string) : list string :=
  match s with
  | EmptyString => match cur with EmptyString => [] | _ => [cur] end
  | String c s' =>
      if Ascii.eqb c "010" then cur :: splitlines_from s' EmptyString
      else if Ascii.eqb c "013" then
        match s' with
        | String d s'' =>
            if Ascii.eqb d "010" then cur :: splitlines_from s'' EmptyString
            else cur :: splitlines_from s' EmptyString
        | EmptyString => cur :: splitlines_from s' EmptyString
        end
      else splitlines_from s' (cur ++ String c EmptyString)
  end.

Definition splitlines (s : string) : list string := splitlines_from s EmptyString.

(** A [set] of strings, kept as a list without repetition; [add] and
    [discard] are those of Python.  The order in which a set is iterated
    is not fixed by Python; the list keeps the order of insertion. *)
Definition set_add (d : string) (l : list string) : list string :=
  if existsb (String.eqb d) l then l else (l ++ [d])%list.

Definition set_discard (d : string) (l : list string) : list string :=
  filter (fun x => negb (String.eqb d x)) l.

(** [map] with a function that can raise: the first exception, in the
    order of the list, is the one reported. *)
Fixpoint map_result {A B : Type} (f : A -> result B) (l : list A) : result (list B) :=
  match l with
  | [] => Ok []
  | a :: l' => b <- f a ;; bs <- map_result f l' ;; Ok (b :: bs)
  end.

(** ** binary64 arithmetic of [set_fan_speed] *)

Definition b64_prec : Z := 53.
Definition b64_emax : Z := 1024.

(** [float(n)]: the nearest binary64, ties to even; a too large integer
    raises [OverflowError]. *)
Definition float_of_Z (n : Z) : result spec_float :=
  match binary_normalize b64_prec b64_emax n 0 false with
  | S754_infinity _ => Raise OverflowError
  | f => Ok f
  end.

Definition float_div : spec_float -> spec_float -> spec_float := SFdiv b64_prec b64_emax.
Definition float_mul : spec_float -> spec_float -> spec_float := SFmul b64_prec b64_emax.

(** [int(x)] for a float: truncation toward zero. *)
Definition int_of_float (x : spec_float) : result Z :=
  match x with
  | S754_zero _ => Ok 0
  | S754_finite s m e =>
      let magnitude :=
        if 0 <=? e then Z.pos m * 2 ^ e else Z.pos m / 2 ^ (- e) in
      Ok (if s then - magnitude else magnitude)
  | S754_infinity _ => Raise OverflowError
  | S754_nan => Raise ValueError
  end.

(** ** class Smart *)

Module Smart.

Record t : Type := mk {
  block_devices : list string;
  device_filter : string;
  boot_device : string;
  highest_temperature : Z;
  smart_workers : Z
}.

(** [Smart.__init__], given the devices [get_block_devices] has found. *)
Definition init (devices : list string) : t :=
  {| block_devices := devices;
     device_filter := "sd";
     boot_device := "ada0";
     highest_temperature := 0;
     smart_workers := 24 |}.

(** [Smart.get_smart_data]: [smartctl] maps a device path to the text the
    utility prints for it; the utility is taken to be installed. *)
Definition get_smart_data (smartctl : string -> string) (device : string) : string :=
  let device := "/dev/" ++ device in
  smartctl device.

(** [Smart.get_parameter_from_smart] *)
Definition get_parameter_from_smart (data parameter : string) (distance : Z)
  : result pyval :=
  match search_group parameter data with
  | Some group1 =>
      let tmp := group1 in
      let length := Z.of_nat (List.length (str_split tmp "   ")) in
      let distance := if length <=? distance then length - 1 else distance in
      model <-
        try_except
          (column <- py_index (str_split group1 "   ") distance ;;
           py_index (str_split column " ") 1)
          (column <- py_index (str_split group1 "   ") (distance + 1) ;;
           py_index (str_split column " ") 1) ;;
      Ok (PyStr model)
  | None => Ok (PyInt 0)
  end.

(** [Smart.get_temperature], on the text printed for the device. *)
Definition temperature_of (smart_data : string) : result Z :=
  parameter <- get_parameter_from_smart smart_data "Temperature_Celsius" 10 ;;
  py_int parameter.

Definition get_temperature (smartctl : string -> string) (device : string) : result Z :=
  let smart_data := get_smart_data smartctl device in
  temperature_of smart_data.

(** The loop of [get_highest_temperature] over the collected results. *)
Definition highest (results : list Z) : Z :=
  fold_left
    (fun highest_temperature temperature =>
       if temperature >? highest_temperature then temperature
       else highest_temperature)
    results 0.

(** [Smart.get_highest_temperature].  [pool.map] returns the temperatures
    in the order of the devices, or raises what a worker raised; a pool of
    less than one process is refused. *)
Definition get_highest_temperature (smartctl : string -> string) (self : t)
  : result (t * Z) :=
  if smart_workers self <? 1 then Raise ValueError
  else
    results <- map_result (get_temperature smartctl) (block_devices self) ;;
    let highest_temperature := highest results in
    Ok ({| block_devices := block_devices self;
           device_filter := device_filter self;
           boot_device := boot_device self;
           highest_temperature := highest_temperature;
           smart_workers := smart_workers self |},
        highest_temperature).

(** The loop of [get_block_devices]: the third word of every line goes
    into the set; a line with less than three words raises. *)
Fixpoint third_words (lines devices : list string) : result (list string) :=
  match lines with
  | [] => Ok devices
  | line :: lines' =>
      device <- py_index (split_ws line) 2 ;;
      third_words lines' (set_add device devices)
  end.

(** [Smart.get_block_devices]: [geom] is what [geom part status -s] prints,
    or [None] when the utility cannot be launched. *)
Definition get_block_devices (geom : option string) (self : t) : result t :=
  match geom with
  | None => Raise (SystemExit 1)
  | Some stdout =>
      devices <- third_words (splitlines stdout) [] ;;
      let devices := set_discard (boot_device self) devices in
      Ok {| block_devices := devices;
            device_filter := device_filter self;
            boot_device := boot_device self;
            highest_temperature := highest_temperature self;
            smart_workers := smart_workers self |}
  end.

(** [Smart.__init__] as the program runs it: the devices are listed while
    [boot_device] still holds the value the constructor has just written. *)
Definition new (geom : option string) : result t :=
  get_block_devices geom (init []).

End Smart.

(** ** class FanControl *)

(** A statement that changes state and can raise: the state reached, with
    the value returned or the exception raised. *)
Inductive outcome (S A : Type) : Type :=
| Done (s : S) (a : A)
| Raised (s : S) (e : exn).
Arguments Done {S A} s a.
Arguments Raised {S A} s e.

Definition state_of {S A : Type} (o : outcome S A) : S :=
  match o with
  | Done s _ => s
  | Raised s _ => s
  end.

(** The machine the fans belong to: whether [ipmitool] can be launched, and
    the commands launched so far, oldest first. *)
Record host : Type := mk_host {
  ipmitool_ok : bool;
  launched : list (list string)
}.

Definition launch (h : host) (cmd : list string) : host :=
  {| ipmitool_ok := ipmitool_ok h; launched := (launched h ++ [cmd])%list |}.

Module FanControl.

Record t : Type := mk {
  polling_interval : Z;
  pwm_max : Z;
  pwm_min : Z;
  pwm_safety : Z;
  fan_speed : Z;
  fan_control_enable : string;
  fan_control_device : string;
  debug : bool;
  pwm_value : Z;
  previous_pwm_value : Z
}.

(** [FanControl.__init__] *)
Definition init : t :=
  {| polling_interval := 30;
     pwm_max := 64;
     pwm_min := 1;
     pwm_safety := 32;
     fan_speed := 50;
     fan_control_enable := "";
     fan_control_device := "";
     debug := false;
     pwm_value := 0;
     previous_pwm_value := 0 |}.

Definition with_fan_speed (self : t) (percent : Z) : t :=
  {| polling_interval := polling_interval self;
     pwm_max := pwm_max self; pwm_min := pwm_min self;
     pwm_safety := pwm_safety self;
     fan_speed := percent;
     fan_control_enable := fan_control_enable self;
     fan_control_device := fan_control_device self;
     debug := debug self;
     pwm_value := pwm_value self;
     previous_pwm_value := previous_pwm_value self |}.

Definition with_pwm_value (self : t) (value : Z) : t :=
  {| polling_interval := polling_interval self;
     pwm_max := pwm_max self; pwm_min := pwm_min self;
     pwm_safety := pwm_safety self;
     fan_speed := fan_speed self;
     fan_control_enable := fan_control_enable self;
     fan_control_device := fan_control_device self;
     debug := debug self;
     pwm_value := value;
     previous_pwm_value := previous_pwm_value self |}.

Definition with_previous_pwm_value (self : t) (value : Z) : t :=
  {| polling_interval := polling_interval self;
     pwm_max := pwm_max self; pwm_min := pwm_min self;
     pwm_safety := pwm_safety self;
     fan_speed := fan_speed self;
     fan_control_enable := fan_control_enable self;
     fan_control_device := fan_control_device self;
     debug := debug self;
     pwm_value := pwm_value self;
     previous_pwm_value := value |}.

(** [FanControl.get_pwm] *)
Definition get_pwm (self : t) : Z := pwm_value self.

(** The two guards at the head of [set_pwm]: the ceiling, then the floor
    that hands the fans to the BIOS. *)
Definition limit (self : t) (value : Z) : Z :=
  let pwm_max := pwm_max self in
  let pwm_min := pwm_min self in
  let value := if value >? pwm_max then pwm_max else value in
  if value <? pwm_min then 0 else value.

(** [raw_rear] of [set_pwm] from the limited [value], before the guard
    on low codes: half the value below [40], the value itself from [40].
    The half is the exact quotient, as the float is for every integer
    below [2^53] in magnitude. *)
Definition computed_rear (value : Z) : pyval :=
  if value <? 40 then PyFloat (inject_Z value / 2)
  else PyInt value.

(** [raw_rear] once the guard has replaced a code below [20]. *)
Definition raw_rear (value : Z) : pyval :=
  let raw_rear := computed_rear value in
  if py_lt raw_rear 20 then PyStr "00" else raw_rear.

(** [ipmi_cmd] of [set_pwm], from the limited [value]. *)
Definition ipmi_cmd (value : Z) : list string :=
  let IPMITOOL := "/usr/local/bin/ipmitool" in
  let CPU := "0x00" in
  let REAR := "0x" ++ py_str (raw_rear value) in
  let FRNT1 := "0x" ++ str_of_Z value in
  let FRNT2 := "0x" ++ str_of_Z value in
  let ipmitool_args :=
    "raw 0x3a 0x01 " ++ CPU ++ " 0x00 " ++ REAR ++ " 0x00 "
      ++ FRNT1 ++ " " ++ FRNT2 ++ " 0x00 0x00" in
  IPMITOOL :: split_ws ipmitool_args.

(** The argument of the command that addresses the rear zone: the seventh
    word, after the program, [raw], two protocol bytes, the CPU code and a
    zero byte. *)
Definition rear_argument (value : Z) : string :=
  nth 6 (ipmi_cmd value) EmptyString.

(** [FanControl.set_pwm] *)
Definition set_pwm (self : t) (value : Z) (h : host) : outcome (t * host) unit :=
  let value := limit self value in
  let ipmi_cmd := ipmi_cmd value in
  let self := with_pwm_value self value in
  if negb (previous_pwm_value self =? value) then
    if ipmitool_ok h then
      Done (with_previous_pwm_value self value, launch h ipmi_cmd) tt
    else Raised (self, h) (SystemExit 1)
  else Done (self, h) tt.

(** The raw code [set_fan_speed] hands to [set_pwm]. *)
Definition raw_code (pwm_max percent : Z) : result Z :=
  max <- float_of_Z pwm_max ;;
  hundred <- float_of_Z 100 ;;
  let one_percent := float_div max hundred in
  p <- float_of_Z percent ;;
  let pwm := float_mul p one_percent in
  int_of_float pwm.

(** The raw code as the specification words it: the percentage of
    [pwm_max], rounded to the nearest integer (a half goes up). *)
Definition spec_raw_code (pwm_max percent : Z) : Z :=
  (2 * (percent * pwm_max) + 100) / 200.

(** Whether the code computed for [percent] is the truncated quotient
    [percent * pwm_max / 100], or one less when the binary64 product has
    fallen just below an integer; with [pwm_max = 64] it must be exact. *)
Definition raw_code_truncates (pwm_max percent : Z) : bool :=
  match raw_code pwm_max percent with
  | Ok code =>
      (percent * pwm_max / 100 - 1 <=? code) && (code <=? percent * pwm_max / 100)
      && (if pwm_max =? 64 then code =? percent * 64 / 100 else true)
  | Raise _ => false
  end.

(** [FanControl.set_fan_speed] *)
Definition set_fan_speed (self : t) (percent : Z) (h : host)
  : outcome (t * host) unit :=
  let self := with_fan_speed self percent in
  match raw_code (pwm_max self) percent with
  | Ok pwm => set_pwm self pwm h
  | Raise e => Raised (self, h) e
  end.

End FanControl.

(** ** main *)

Module Main.

(** The objects [main] builds from the configuration, and the machine. *)
Record state : Type := mk {
  chassis : FanControl.t;
  pid : PID.t;
  temp_source : Smart.t;
  machine : host
}.

Definition with_chassis (s : state) (ch : FanControl.t * host) : state :=
  {| chassis := fst ch; pid := pid s; temp_source := temp_source s;
     machine := snd ch |}.

(** Where a [KeyboardInterrupt] reaches the body of the loop. *)
Inductive point : Type :=
| WhileSampling
| BeforeActuation
| WhileSleeping.

Definition point_eqb (p q : point) : bool :=
  match p, q with
  | WhileSampling, WhileSampling => true
  | BeforeActuation, BeforeActuation => true
  | WhileSleeping, WhileSleeping => true
  | _, _ => false
  end.

(** What the surroundings do during one turn of the loop: the texts
    [smartctl] prints, and the interrupt that arrives, if any. *)
Record tick : Type := mk_tick {
  smartctl : string -> string;
  interrupt : option point
}.

Definition interrupted (tk : tick) (p : point) : bool :=
  match interrupt tk with
  | Some q => point_eqb p q
  | None => false
  end.

(** The body of [while True].  [log] only formats and writes a line;
    [time.sleep] refuses a negative interval. *)
Definition body (polling_interval : Q) (s : state) (tk : tick) : outcome state unit :=
  if interrupted tk WhileSampling then Raised s KeyboardInterrupt
  else
    match Smart.get_highest_temperature (smartctl tk) (temp_source s) with
    | Raise e => Raised s e
    | Ok (source, highest_temperature) =>
        let '(pid, fan_speed) := PID.update (pid s) highest_temperature in
        let s := {| chassis := chassis s; pid := pid; temp_source := source;
                    machine := machine s |} in
        if interrupted tk BeforeActuation then Raised s KeyboardInterrupt
        else
          match FanControl.set_fan_speed (chassis s) fan_speed (machine s) with
          | Raised ch e => Raised (with_chassis s ch) e
          | Done ch _ =>
              let s := with_chassis s ch in
              if negb (Qle_bool 0 polling_interval) then Raised s ValueError
              else if interrupted tk WhileSleeping then Raised s KeyboardInterrupt
              else Done s tt
          end
    end.

(** How a run ends: still in the loop when the script of ticks is used up,
    left through [sys.exit], or stopped by an exception nobody catches. *)
Inductive final : Type :=
| Running (s : state)
| Exited (s : state) (code : Z)
| Crashed (s : state) (e : exn).

(** The [except (KeyboardInterrupt, SystemExit)] clause of [main]. *)
Definition shutdown (s : state) : final :=
  match FanControl.set_pwm (chassis s) (FanControl.pwm_safety (chassis s)) (machine s) with
  | Done ch _ => Exited (with_chassis s ch) 1
  | Raised ch (SystemExit code) => Exited (with_chassis s ch) code
  | Raised ch e => Crashed (with_chassis s ch) e
  end.

(** The [try] statement of [main], over the ticks the surroundings offer. *)
Fixpoint loop (polling_interval : Q) (s : state) (script : list tick) : final :=
  match script with
  | [] => Running s
  | tk :: script' =>
      match body polling_interval s tk with
      | Done s' _ => loop polling_interval s' script'
      | Raised s' KeyboardInterrupt => shutdown s'
      | Raised s' (SystemExit _) => shutdown s'
      | Raised s' e => Crashed s' e
      end
  end.

(** [main], from the configured objects. *)
Definition main (polling_interval : Q) (s : state) (script : list tick) : final :=
  match FanControl.set_pwm (chassis s) (FanControl.pwm_min (chassis s)) (machine s) with
  | Done ch _ => loop polling_interval (with_chassis s ch) script
  | Raised ch (SystemExit code) => Exited (with_chassis s ch) code
  | Raised ch e => Crashed (with_chassis s ch) e
  end.

(** The status the process ends with; a traceback ends it with [1]. *)
Definition exit_status (f : final) : option Z :=
  match f with
  | Running _ => None
  | Exited _ code => Some code
  | Crashed _ _ => Some 1
  end.

Definition final_state (f : final) : state :=
  match f with
  | Running s => s
  | Exited s _ => s
  | Crashed s _ => s
  end.

(** A configured system for the examples: the chassis of
    [FanControl.__init__], a controller aiming at 35 degrees, the given
    devices, and a machine where [ipmitool] runs and nothing was launched. *)
Definition example (devices : list string) : state :=
  {| chassis := FanControl.init;
     pid := PID.set_target_value (PID.init 2 1 0 0 0 100 (-100)) 35;
     temp_source := Smart.init devices;
     machine := {| ipmitool_ok := true; launched := [] |} |}.

(** What [smartctl] prints for a healthy device at [38] degrees, and for
    the device [da1] a line that carries the label and nothing after it. *)
Definition healthy_line : string :=
  "194 Temperature_Celsius     0x0022   117   097   000    Old_age   Always       -       38 (Min/Max 20/45)".

Definition one_bare_label (device : string) : string :=
  if String.eqb device "/dev/da1" then "194 Temperature_Celsius"
  else healthy_line.

End Main.

(** ** Configuration and start of the program *)

Module Config.

(** The options [main] reads, for a configuration file that holds every
    one of them with a value of the type asked for ([getint], [getfloat],
    [get]); reading the file itself is left to [configparser]. *)
Record t : Type := mk {
  polling_interval : Q;
  target_temperature : Z;
  P : Z;
  I : Z;
  D : Z;
  D_amplification : Z;
  I_start : Z;
  I_max : Z;
  I_min : Z;
  device_filter : string;
  boot_device : string;
  smart_workers : Z;
  pwm_min : Z;
  pwm_max : Z;
  pwm_safety : Z
}.

End Config.

Module Program.

(** [get_pid_settings] *)
Definition get_pid_settings (config : Config.t) : PID.t :=
  let pid :=
    PID.init (Config.P config) (Config.I config) (Config.D config)
      (Config.D_amplification config) (Config.I_start config)
      (Config.I_max config) (Config.I_min config) in
  PID.set_target_value pid (Config.target_temperature config).

(** [get_temp_source] *)
Definition get_temp_source (config : Config.t) (geom : option string)
  : result Smart.t :=
  temp_source <- Smart.new geom ;;
  Ok {| Smart.block_devices := Smart.block_devices temp_source;
        Smart.device_filter := Config.device_filter config;
        Smart.boot_device := Config.boot_device config;
        Smart.highest_temperature := Smart.highest_temperature temp_source;
        Smart.smart_workers := Config.smart_workers config |}.

(** [get_chassis_settings] *)
Definition get_chassis_settings (config : Config.t) : FanControl.t :=
  let chassis := FanControl.init in
  {| FanControl.polling_interval := FanControl.polling_interval chassis;
     FanControl.pwm_max := Config.pwm_max config;
     FanControl.pwm_min := Config.pwm_min config;
     FanControl.pwm_safety := Config.pwm_safety config;
     FanControl.fan_speed := FanControl.fan_speed chassis;
     FanControl.fan_control_enable := FanControl.fan_control_enable chassis;
     FanControl.fan_control_device := FanControl.fan_control_device chassis;
     FanControl.debug := FanControl.debug chassis;
     FanControl.pwm_value := FanControl.pwm_value chassis;
     FanControl.previous_pwm_value := FanControl.previous_pwm_value chassis |}.

(** How the process ends: before [main] has built its objects (nothing was
    sent to the fans), or as the run of [Main.main] ends. *)
Inductive ended : Type :=
| NotStarted (e : exn) (h : host)
| Ran (f : Main.final).

(** [main()], from the configuration: the objects are built in the order
    chassis, controller, temperature source, then the fans are set and the
    loop runs. *)
Definition main (config : Config.t) (geom : option string) (h : host)
    (script : list Main.tick) : ended :=
  let polling_interval := Config.polling_interval config in
  let chassis := get_chassis_settings config in
  let pid := get_pid_settings config in
  match get_temp_source config geom with
  | Raise e => NotStarted e h
  | Ok temp_source =>
      Ran (Main.main polling_interval
             {| Main.chassis := chassis; Main.pid := pid;
                Main.temp_source := temp_source; Main.machine := h |}
             script)
  end.

(** What the attempt to lock [.lock] gives: the lock, the error [EAGAIN]
    of a lock held by another process, or another error. *)
Inductive lock_attempt : Type :=
| Acquired
| Busy
| OtherError.

(** The script under [if __name__ == "__main__"]: only [EAGAIN] stops the
    program, with [sys.exit(-1)]. *)
Definition run (lock : lock_attempt) (config : Config.t) (geom : option string)
    (h : host) (script : list Main.tick) : ended :=
  match lock with
  | Busy => NotStarted (SystemExit (-1)) h
  | Acquired | OtherError => main config geom h script
  end.

(** The status the process ends with, if it ends. *)
Definition exit_status (r : ended) : option Z :=
  match r with
  | NotStarted (SystemExit code) _ => Some code
  | NotStarted _ _ => Some 1
  | Ran f => Main.exit_status f
  end.

(** The machine as the process leaves it. *)
Definition machine_of (r : ended) : host :=
  match r with
  | NotStarted _ h => h
  | Ran f => Main.machine (Main.final_state f)
  end.

End Program.

(** ** Notions used by the properties *)

(** The number a decimal numeral denotes, read from the left with the
    value [acc] of the digits already read. *)
Fixpoint uint_value (acc : Z) (u : Decimal.uint) : Z :=
  match u with
  | Decimal.Nil => acc
  | Decimal.D0 u' => uint_value (10 * acc + 0) u'
  | Decimal.D1 u' => uint_value (10 * acc + 1) u'
  | Decimal.D2 u' => uint_value (10 * acc + 2) u'
  | Decimal.D3 u' => uint_value (10 * acc + 3) u'
  | Decimal.D4 u' => uint_value (10 * acc + 4) u'
  | Decimal.D5 u' => uint_value (10 * acc + 5) u'
  | Decimal.D6 u' => uint_value (10 * acc + 6) u'
  | Decimal.D7 u' => uint_value (10 * acc + 7) u'
  | Decimal.D8 u' => uint_value (10 * acc + 8) u'
  | Decimal.D9 u' => uint_value (10 * acc + 9) u'
  end.





(** The chassis and the machine of a state of [main]. *)
Definition fans (s : Main.state) : FanControl.t * host :=
  (Main.chassis s, Main.machine s).

(** A command that [set_pwm] builds for a value that is [0] or lies
    between the two bounds. *)
Definition command_within (lo hi : Z) (cmd : list string) : Prop :=
  exists v : Z, cmd = FanControl.ipmi_cmd v /\ (v = 0 \/ lo <= v <= hi).

(** A device that [geom] lists: the third word of one of the lines. *)
Definition listed (stdout device : string) : Prop :=
  exists line : string,
    In line (splitlines stdout) /\ nth_error (split_ws line) 2 = Some device.

(** * Properties *)

(** ** The control law *)

Section PIDProperties.

Import PID.

Variable self : PID.t.

Lemma update_keeps_configuration (x : Z) :
  let self' := fst (update self x) in
  Kp self' = Kp self /\ Ki self' = Ki self /\ Kd self' = Kd self
  /\ Integrator_max self' = Integrator_max self
  /\ Integrator_min self' = Integrator_min self
  /\ set_point self' = set_point self.
Proof. cbn. repeat split. Qed.

(** The guard of [update] on the accumulated error, read on its own. *)
Lemma update_integrator (x : Z) :
  let acc := Integrator self + (x - set_point self) in
  Integrator (fst (update self x)) =
    if acc >? Integrator_max self then Integrator_max self
    else if acc <? Integrator_min self then Integrator_min self
    else acc.
Proof. reflexivity. Qed.

Lemma update_integrator_bounded (x : Z) :
  Integrator_min self <= Integrator_max self ->
  Integrator_min self <= Integrator (fst (update self x)) <= Integrator_max self.
Proof.
  intros Hb. rewrite update_integrator. cbv zeta.
  destruct (Z.gtb_spec (Integrator self + (x - set_point self)) (Integrator_max self));
    [lia|].
  destruct (Z.ltb_spec (Integrator self + (x - set_point self)) (Integrator_min self));
    lia.
Qed.

End PIDProperties.

Lemma run_snoc (self : PID.t) (inputs : list Z) (x : Z) :
  PID.run self (inputs ++ [x])%list = fst (PID.update (PID.run self inputs) x).
Proof. unfold PID.run. now rewrite fold_left_app. Qed.

Lemma run_keeps_bounds (inputs : list Z) :
  forall self : PID.t,
    PID.Integrator_max (PID.run self inputs) = PID.Integrator_max self
    /\ PID.Integrator_min (PID.run self inputs) = PID.Integrator_min self.
Proof.
  induction inputs as [|x inputs IH]; intros self; [now split|].
  change (PID.run self (x :: inputs)) with (PID.run (fst (PID.update self x)) inputs).
  destruct (IH (fst (PID.update self x))) as [Hmax Hmin].
  now rewrite Hmax, Hmin.
Qed.

(** C1.  One call of [update] leaves in the controller, and returns, what
    the discrete PID step of the specification computes: the error against
    the set point, the proportional term, the derivative term on the sum of
    the error and the previous derivator, the derivator replaced by the
    error, the integrator advanced by the error and clamped between its
    bounds, the integral term, and the sum of the three terms as output.
    The gains, the bounds and the set point are left as they were. *)
Theorem update_is_spec_step (self : PID.t) (current_value : Z) :
  PID.Integrator_min self <= PID.Integrator_max self ->
  PID.observed self current_value = Some (PID.spec_update self current_value)
  /\ snd (PID.update self current_value) =
       PID.s_output (PID.spec_update self current_value)
  /\ PID.Integrator_min (fst (PID.update self current_value)) = PID.Integrator_min self
  /\ PID.Integrator_max (fst (PID.update self current_value)) = PID.Integrator_max self
  /\ PID.set_point (fst (PID.update self current_value)) = PID.set_point self.
Proof.
  intros Hb.
  assert (Hclamp :
    PID.Integrator (fst (PID.update self current_value)) =
    PID.clamp (PID.Integrator self + (current_value - PID.set_point self))
              (PID.Integrator_min self) (PID.Integrator_max self)).
  { rewrite update_integrator. cbv zeta. unfold PID.clamp.
    destruct (Z.gtb_spec (PID.Integrator self + (current_value - PID.set_point self))
                         (PID.Integrator_max self));
      [lia|].
    destruct (Z.ltb_spec (PID.Integrator self + (current_value - PID.set_point self))
                         (PID.Integrator_min self));
      lia. }
  unfold PID.observed, PID.spec_update.
  cbn [PID.update fst snd PID.P_value PID.I_value PID.D_value PID.error
       PID.Derivator PID.Integrator PID.s_output PID.Integrator_min
       PID.Integrator_max PID.set_point] in *.
  rewrite Hclamp.
  repeat split; try reflexivity.
  - f_equal. f_equal; lia.
  - lia.
Qed.

Lemma update_is_spec_step_witness :
  PID.Integrator_min (PID.set_target_value (PID.init 2 1 0 0 0 100 (-100)) 35)
    <= PID.Integrator_max (PID.set_target_value (PID.init 2 1 0 0 0 100 (-100)) 35)
  /\ PID.observed (PID.set_target_value (PID.init 2 1 0 0 0 100 (-100)) 35) 45 =
       Some {| PID.s_error := 10; PID.s_P_term := 20; PID.s_D_term := 0;
               PID.s_derivator := 10; PID.s_integrator := 10;
               PID.s_I_term := 10; PID.s_output := 30 |}.
Proof.
  split; [cbn; lia|].
  exact (proj1 (update_is_spec_step
                  (PID.set_target_value (PID.init 2 1 0 0 0 100 (-100)) 35) 45
                  ltac:(cbn; lia))).
Defined.

(** C2.  After every call of a sequence of calls of [update], whatever the
    values fed in, the integrator lies between [Integrator_min] and
    [Integrator_max], provided the lower bound is not above the upper
    one. *)
Theorem integrator_stays_within_bounds (self : PID.t) (inputs : list Z) (x : Z) :
  PID.Integrator_min self <= PID.Integrator_max self ->
  PID.Integrator_min self
    <= PID.Integrator (PID.run self (inputs ++ [x])%list)
    <= PID.Integrator_max self.
Proof.
  intros Hb. rewrite run_snoc.
  destruct (run_keeps_bounds inputs self) as [Hmax Hmin].
  rewrite <- Hmax, <- Hmin. apply update_integrator_bounded.
  rewrite Hmax, Hmin. exact Hb.
Qed.

Lemma integrator_stays_within_bounds_witness :
  PID.Integrator_min (PID.init 2 1 0 0 0 100 (-100))
    <= PID.Integrator_max (PID.init 2 1 0 0 0 100 (-100))
  /\ PID.Integrator_min (PID.init 2 1 0 0 0 100 (-100))
       <= PID.Integrator
            (PID.run (PID.init 2 1 0 0 0 100 (-100)) ([90; 90; 90] ++ [1000])%list)
       <= PID.Integrator_max (PID.init 2 1 0 0 0 100 (-100)).
Proof.
  split; [cbn; lia|].
  apply (integrator_stays_within_bounds
           (PID.init 2 1 0 0 0 100 (-100)) [90; 90; 90] 1000).
  cbn; lia.
Defined.

(** ** Words of a command line *)

Lemma append_assoc_char (cur : string) (c : ascii) (w : string) :
  (cur ++ String c EmptyString) ++ w = cur ++ String c w.
Proof. induction cur as [|d cur IH]; cbn; [reflexivity|now rewrite IH]. Qed.

(** Reading a word moves it whole into the piece being read. *)
Lemma split_ws_word (w : string) :
  forall cur rest : string,
    no_space w = true ->
    split_ws_from (w ++ rest) cur = split_ws_from rest (cur ++ w).
Proof.
  induction w as [|c w IH]; intros cur rest Hw.
  - cbn. f_equal. induction cur as [|d cur IHc]; cbn; [reflexivity|now rewrite <- IHc].
  - cbn in Hw. apply andb_prop in Hw. destruct Hw as [Hc Hw].
    apply negb_true_iff in Hc.
    change ((String c w) ++ rest) with (String c (w ++ rest)).
    cbn [split_ws_from]. rewrite Hc, (IH _ _ Hw). now rewrite append_assoc_char.
Qed.

Lemma no_space_uint (u : Decimal.uint) :
  no_space (NilEmpty.string_of_uint u) = true.
Proof. induction u; cbn [NilEmpty.string_of_uint no_space]; try rewrite IHu; reflexivity. Qed.

Lemma no_space_str_of_Z (n : Z) : no_space (str_of_Z n) = true.
Proof.
  unfold str_of_Z, NilZero.string_of_int, NilZero.string_of_uint.
  destruct n as [|p|p]; cbn [Z.to_int]; [reflexivity| |].
  - destruct (Pos.to_uint p) eqn:E; try reflexivity; rewrite <- E; apply no_space_uint.
  - change (no_space (String "-" ?s)) with (no_space s).
    destruct (Pos.to_uint p) eqn:E; try reflexivity;
      cbn [no_space is_space]; rewrite <- E; apply no_space_uint.
Qed.

Lemma split_ws_space (cur rest : string) :
  split_ws_from (String " " rest) cur =
  match cur with
  | EmptyString => split_ws_from rest EmptyString
  | _ => cur :: split_ws_from rest EmptyString
  end.
Proof. reflexivity. Qed.

(** A word followed by a blank is the next word found. *)
Lemma split_ws_token (c : ascii) (w rest : string) :
  no_space (String c w) = true ->
  split_ws_from (String c w ++ String " " rest) EmptyString
  = String c w :: split_ws_from rest EmptyString.
Proof.
  intros Hw. rewrite (split_ws_word _ EmptyString _ Hw).
  change (EmptyString ++ String c w) with (String c w).
  now rewrite split_ws_space.
Qed.

Lemma split_ws_last (c : ascii) (w : string) :
  no_space (String c w) = true ->
  split_ws_from (String c w ++ EmptyString) EmptyString = [String c w].
Proof.
  intros Hw. now rewrite (split_ws_word _ EmptyString _ Hw).
Qed.

Lemma no_space_0x (w : string) : no_space w = true -> no_space (String "0" (String "x" w)) = true.
Proof. intros H. change (no_space (String "0" (String "x" w))) with (no_space w). exact H. Qed.

(** The words [split()] finds in the arguments built by [set_pwm], for a
    rear code [r] and a front code [v] without white space. *)
Lemma command_words (r v : string) :
  no_space r = true -> no_space v = true ->
  split_ws ("raw 0x3a 0x01 " ++ "0x00" ++ " 0x00 " ++ ("0x" ++ r) ++ " 0x00 "
              ++ ("0x" ++ v) ++ " " ++ ("0x" ++ v) ++ " 0x00 0x00")
  = ["raw"; "0x3a"; "0x01"; "0x00"; "0x00"; "0x" ++ r; "0x00";
     "0x" ++ v; "0x" ++ v; "0x00"; "0x00"].
Proof.
  intros Hr Hv. unfold split_ws.
  change ("raw 0x3a 0x01 " ++ "0x00" ++ " 0x00 " ++ ("0x" ++ r) ++ " 0x00 "
              ++ ("0x" ++ v) ++ " " ++ ("0x" ++ v) ++ " 0x00 0x00")
    with ("raw" ++ String " " ("0x3a" ++ String " " ("0x01" ++ String " "
          ("0x00" ++ String " " ("0x00" ++ String " "
          (String "0" (String "x" r) ++ String " " ("0x00" ++ String " "
          (String "0" (String "x" v) ++ String " "
          (String "0" (String "x" v) ++ String " " ("0x00" ++ String " "
          ("0x00" ++ EmptyString))))))))))).
  pose proof (no_space_0x r Hr) as Hr'. pose proof (no_space_0x v Hv) as Hv'.
  rewrite !split_ws_token by (reflexivity || assumption).
  rewrite split_ws_last by reflexivity.
  reflexivity.
Qed.

(** ** The actuation policy *)

Section FanControlProperties.

Import FanControl.

Lemma limit_cases (self : t) (value : Z) :
  limit self value = 0
  \/ (pwm_min self <= limit self value <= pwm_max self).
Proof.
  unfold limit.
  destruct (Z.gtb_spec value (pwm_max self));
    match goal with |- context [?a <? ?b] => destruct (Z.ltb_spec a b) end;
    auto; right; lia.
Qed.

Lemma limit_above (self : t) (value : Z) :
  pwm_max self < value -> limit self value = limit self (pwm_max self).
Proof.
  intros H. unfold limit.
  destruct (Z.gtb_spec value (pwm_max self)); [|lia].
  destruct (Z.gtb_spec (pwm_max self) (pwm_max self)); [lia|reflexivity].
Qed.

Lemma limit_below (self : t) (value : Z) :
  value < pwm_min self -> limit self value = 0.
Proof.
  intros H. unfold limit.
  destruct (Z.gtb_spec value (pwm_max self));
    match goal with |- context [?a <? ?b] => destruct (Z.ltb_spec a b) end;
    auto; lia.
Qed.

Lemma limit_inside (self : t) (value : Z) :
  pwm_min self <= value <= pwm_max self -> limit self value = value.
Proof.
  intros H. unfold limit.
  destruct (Z.gtb_spec value (pwm_max self)); [lia|].
  destruct (Z.ltb_spec value (pwm_min self)); [lia|reflexivity].
Qed.

(** The comparison of half a value with [20]. *)
Lemma half_lt_20 (value : Z) :
  py_lt (PyFloat (inject_Z value / 2)) 20 = (value <? 40).
Proof.
  unfold py_lt, Qle_bool, Qdiv, Qmult, Qinv, inject_Z. cbn.
  destruct (Z.leb_spec 40 (value * 1)), (Z.ltb_spec value 40); cbn; lia || reflexivity.
Qed.

Lemma raw_rear_low (value : Z) : value < 40 -> raw_rear value = PyStr "00".
Proof.
  intros H. unfold raw_rear, computed_rear.
  destruct (Z.ltb_spec value 40); [|lia].
  rewrite half_lt_20. destruct (Z.ltb_spec value 40); [reflexivity|lia].
Qed.

Lemma raw_rear_high (value : Z) : 40 <= value -> raw_rear value = PyInt value.
Proof.
  intros H. unfold raw_rear, computed_rear.
  destruct (Z.ltb_spec value 40); [lia|].
  cbn [py_lt]. destruct (Z.ltb_spec value 20); [lia|reflexivity].
Qed.

Lemma no_space_raw_rear (value : Z) : no_space (py_str (raw_rear value)) = true.
Proof.
  destruct (Z.lt_ge_cases value 40) as [H|H].
  - rewrite (raw_rear_low _ H). reflexivity.
  - rewrite (raw_rear_high _ H). apply no_space_str_of_Z.
Qed.

(** The command, word by word. *)
Lemma ipmi_cmd_words (value : Z) :
  ipmi_cmd value =
  ["/usr/local/bin/ipmitool"; "raw"; "0x3a"; "0x01"; "0x00"; "0x00";
   "0x" ++ py_str (raw_rear value); "0x00";
   "0x" ++ str_of_Z value; "0x" ++ str_of_Z value; "0x00"; "0x00"].
Proof.
  unfold ipmi_cmd. cbv zeta.
  rewrite (command_words _ _ (no_space_raw_rear value) (no_space_str_of_Z value)).
  reflexivity.
Qed.

Lemma rear_argument_is (value : Z) :
  rear_argument value = "0x" ++ py_str (raw_rear value).
Proof. unfold rear_argument. now rewrite ipmi_cmd_words. Qed.

End FanControlProperties.

Lemma set_pwm_pwm_value (self : FanControl.t) (value : Z) (h : host) :
  FanControl.pwm_value (fst (state_of (FanControl.set_pwm self value h)))
  = FanControl.limit self value.
Proof.
  unfold FanControl.set_pwm.
  destruct (negb _); [destruct (ipmitool_ok h)|]; reflexivity.
Qed.

Lemma set_pwm_keeps_bounds (self : FanControl.t) (value : Z) (h : host) :
  let self' := fst (state_of (FanControl.set_pwm self value h)) in
  FanControl.pwm_min self' = FanControl.pwm_min self
  /\ FanControl.pwm_max self' = FanControl.pwm_max self
  /\ FanControl.pwm_safety self' = FanControl.pwm_safety self.
Proof.
  unfold FanControl.set_pwm.
  destruct (negb _); [destruct (ipmitool_ok h)|]; cbn; auto.
Qed.

(** [set_pwm] only looks at its argument through [limit]. *)
Lemma set_pwm_through_limit (self : FanControl.t) (v w : Z) (h : host) :
  FanControl.limit self v = FanControl.limit self w ->
  FanControl.set_pwm self v h = FanControl.set_pwm self w h.
Proof. intros E. unfold FanControl.set_pwm. now rewrite E. Qed.

(** C3.  After [set_pwm(value)], for every [value], the stored
    [pwm_value] is [0] (the fans are left to the BIOS) or lies between
    [pwm_min] and [pwm_max].  A value above [pwm_max] is treated exactly as
    [pwm_max] itself, and is stored as [pwm_max] when the bounds are in
    order; a value below [pwm_min], in particular one strictly between [0]
    and [pwm_min], is stored as [0]. *)
Theorem set_pwm_stores_auto_or_bounded (self : FanControl.t) (value : Z) (h : host) :
  let stored := FanControl.pwm_value (fst (state_of (FanControl.set_pwm self value h))) in
  (stored = 0 \/ FanControl.pwm_min self <= stored <= FanControl.pwm_max self)
  /\ (FanControl.pwm_max self < value ->
      FanControl.set_pwm self value h
      = FanControl.set_pwm self (FanControl.pwm_max self) h)
  /\ (FanControl.pwm_max self < value ->
      FanControl.pwm_min self <= FanControl.pwm_max self ->
      stored = FanControl.pwm_max self)
  /\ (value < FanControl.pwm_min self -> stored = 0).
Proof.
  cbv zeta. rewrite set_pwm_pwm_value. repeat split.
  - apply limit_cases.
  - intros H. apply set_pwm_through_limit, limit_above, H.
  - intros H Hb. rewrite (limit_above _ _ H). apply limit_inside. lia.
  - apply limit_below.
Qed.

Lemma set_pwm_stores_auto_or_bounded_witness :
  FanControl.pwm_max FanControl.init < 200
  /\ FanControl.pwm_min FanControl.init <= FanControl.pwm_max FanControl.init
  /\ FanControl.pwm_value
       (fst (state_of (FanControl.set_pwm FanControl.init 200
                         {| ipmitool_ok := true; launched := [] |})))
     = FanControl.pwm_max FanControl.init.
Proof.
  split; [cbn; lia|]. split; [cbn; lia|].
  apply (set_pwm_stores_auto_or_bounded FanControl.init 200
           {| ipmitool_ok := true; launched := [] |}); cbn; lia.
Defined.

Lemma limit_le (self : FanControl.t) (value : Z) :
  FanControl.limit self value <= Z.max 0 value.
Proof.
  unfold FanControl.limit.
  destruct (Z.gtb_spec value (FanControl.pwm_max self));
    match goal with |- context [?a <? ?b] => destruct (Z.ltb_spec a b) end; lia.
Qed.

Lemma rear_argument_low (value : Z) :
  value < 40 -> FanControl.rear_argument value = "0x00".
Proof. intros H. now rewrite rear_argument_is, (raw_rear_low _ H). Qed.

Lemma rear_argument_high (value : Z) :
  40 <= value -> FanControl.rear_argument value = "0x" ++ str_of_Z value.
Proof. intros H. now rewrite rear_argument_is, (raw_rear_high _ H). Qed.

(** With the bounds of [FanControl.__init__], [set_pwm(30)] computes the
    half code [15.0] for the rear zone, which the guard on codes below [20]
    replaces: the rear argument of the command is [0x00], not [0x15]. *)
Lemma rear_code_for_30_is_auto :
  FanControl.limit FanControl.init 30 = 30
  /\ FanControl.computed_rear 30 = PyFloat (inject_Z 30 / 2)
  /\ FanControl.raw_rear 30 = PyStr "00"
  /\ FanControl.rear_argument (FanControl.limit FanControl.init 30) = "0x00"
  /\ FanControl.rear_argument (FanControl.limit FanControl.init 30) <> "0x15".
Proof.
  split; [reflexivity|]. split; [reflexivity|].
  split; [apply (raw_rear_low 30); lia|].
  change (FanControl.limit FanControl.init 30) with 30.
  rewrite (rear_argument_low 30) by lia.
  split; [reflexivity|discriminate].
Qed.

(** C4, as the code has it.  In the zone computation of [set_pwm], the
    value [30] gives the half code [15], which is below [20], so the rear
    zone is left to the BIOS (code [00]); the value [50], when the bounds
    let it through, gives the rear zone the full code [50]; and whenever
    the computed rear code is below [20] the rear zone gets code [00]. *)
Theorem rear_code_of_zone_computation (self : FanControl.t) :
  FanControl.rear_argument (FanControl.limit self 30) = "0x00"
  /\ (FanControl.pwm_min self <= 50 <= FanControl.pwm_max self ->
      FanControl.raw_rear (FanControl.limit self 50) = PyInt 50
      /\ FanControl.rear_argument (FanControl.limit self 50) = "0x50")
  /\ (forall value : Z,
        py_lt (FanControl.computed_rear value) 20 = true ->
        FanControl.raw_rear value = PyStr "00"
        /\ FanControl.rear_argument value = "0x00").
Proof.
  repeat split.
  - apply rear_argument_low. pose proof (limit_le self 30). lia.
  - rewrite (limit_inside self 50 H). apply (raw_rear_high 50). lia.
  - rewrite (limit_inside self 50 H). rewrite (rear_argument_high 50) by lia.
    reflexivity.
  - unfold FanControl.raw_rear. now rewrite H.
  - rewrite rear_argument_is. unfold FanControl.raw_rear. now rewrite H.
Qed.

Lemma rear_code_of_zone_computation_witness :
  (FanControl.pwm_min FanControl.init <= 50 <= FanControl.pwm_max FanControl.init)
  /\ FanControl.rear_argument (FanControl.limit FanControl.init 50) = "0x50"
  /\ py_lt (FanControl.computed_rear 39) 20 = true
  /\ FanControl.rear_argument 39 = "0x00".
Proof.
  split; [cbn; lia|]. split.
  - apply (proj1 (proj2 (rear_code_of_zone_computation FanControl.init))). cbn; lia.
  - split; [reflexivity|].
    apply (proj2 (proj2 (rear_code_of_zone_computation FanControl.init)) 39).
    reflexivity.
Defined.

(** C10.  The rear zone never receives a half code.  For every value that
    reaches the zone computation of [set_pwm]: below [40] the half of the
    value is below [20] and the rear code is forced to [00]; from [40] on
    the rear code is the value itself.  So the rear argument of the command
    is [0x00] or the full code of a value of at least [40], and the half
    is never what [raw_rear] ends up holding. *)
Theorem rear_code_is_auto_or_full (value : Z) :
  (value < 40 ->
   py_lt (FanControl.computed_rear value) 20 = true
   /\ FanControl.raw_rear value = PyStr "00"
   /\ FanControl.rear_argument value = "0x00")
  /\ (40 <= value ->
      FanControl.raw_rear value = PyInt value
      /\ FanControl.rear_argument value = "0x" ++ str_of_Z value)
  /\ (forall q : Q, FanControl.raw_rear value <> PyFloat q)
  /\ (FanControl.rear_argument value = "0x00"
      \/ (40 <= value /\ FanControl.rear_argument value = "0x" ++ str_of_Z value)).
Proof.
  repeat split.
  - unfold FanControl.computed_rear. destruct (Z.ltb_spec value 40); [|lia].
    rewrite half_lt_20. now apply Z.ltb_lt.
  - now apply raw_rear_low.
  - now apply rear_argument_low.
  - now apply raw_rear_high.
  - now apply rear_argument_high.
  - intros q. destruct (Z.lt_ge_cases value 40) as [H|H].
    + rewrite (raw_rear_low _ H). discriminate.
    + rewrite (raw_rear_high _ H). discriminate.
  - destruct (Z.lt_ge_cases value 40) as [H|H].
    + left. now apply rear_argument_low.
    + right. split; [exact H|now apply rear_argument_high].
Qed.

Lemma rear_code_is_auto_or_full_witness :
  (38 < 40 /\ FanControl.rear_argument 38 = "0x00")
  /\ (40 <= 64 /\ FanControl.rear_argument 64 = "0x64").
Proof.
  split; (split; [lia|]).
  - apply (proj1 (rear_code_is_auto_or_full 38)). lia.
  - apply (proj1 (proj2 (rear_code_is_auto_or_full 64))). lia.
Defined.

(** ** Suppression of repeated writes *)

(** From the state [FanControl.__init__] builds, where the previous value
    is [0], two calls [set_pwm(0)] in a row launch no command at all. *)
Lemma set_pwm_twice_may_write_nothing :
  let h := {| ipmitool_ok := true; launched := [] |} in
  let first := state_of (FanControl.set_pwm FanControl.init 0 h) in
  let second := state_of (FanControl.set_pwm (fst first) 0 (snd first)) in
  launched (snd second) = []
  /\ List.length (launched (snd second)) <> (List.length (launched h) + 1)%nat.
Proof. cbv zeta. split; [reflexivity|cbn; discriminate]. Qed.

(** C6, as the code has it.  When [ipmitool] can be launched, calling
    [set_pwm(x)] twice in a row launches at most one command: the first
    call launches it exactly when the limited value differs from
    [previous_pwm_value], and then records the value as previous; the
    second call launches nothing and leaves the state as the first call
    left it. *)
Theorem set_pwm_twice_writes_at_most_once (self : FanControl.t) (x : Z) (h : host) :
  ipmitool_ok h = true ->
  exists (self1 : FanControl.t) (h1 : host),
    FanControl.set_pwm self x h = Done (self1, h1) tt
    /\ FanControl.set_pwm self1 x h1 = Done (self1, h1) tt
    /\ FanControl.previous_pwm_value self1 = FanControl.limit self x
    /\ launched h1 =
         (launched h ++
          (if FanControl.previous_pwm_value self =? FanControl.limit self x
           then []
           else [FanControl.ipmi_cmd (FanControl.limit self x)]))%list.
Proof.
  intros Hok.
  unfold FanControl.set_pwm at 1.
  cbn [FanControl.with_pwm_value FanControl.previous_pwm_value].
  destruct (Z.eqb_spec (FanControl.previous_pwm_value self) (FanControl.limit self x))
    as [E|E]; cbn [negb].
  - eexists _, _. split; [reflexivity|].
    split; [|split; [exact E|now rewrite app_nil_r]].
    unfold FanControl.set_pwm.
    change (FanControl.limit (FanControl.with_pwm_value self (FanControl.limit self x)) x)
      with (FanControl.limit self x).
    cbn [FanControl.with_pwm_value FanControl.previous_pwm_value].
    rewrite E, Z.eqb_refl. reflexivity.
  - rewrite Hok. eexists _, _. split; [reflexivity|].
    split; [|split; reflexivity].
    unfold FanControl.set_pwm.
    change (FanControl.limit
              (FanControl.with_previous_pwm_value
                 (FanControl.with_pwm_value self (FanControl.limit self x))
                 (FanControl.limit self x)) x)
      with (FanControl.limit self x).
    cbn [FanControl.with_pwm_value FanControl.with_previous_pwm_value
         FanControl.previous_pwm_value].
    rewrite Z.eqb_refl. reflexivity.
Qed.

Lemma set_pwm_twice_writes_at_most_once_witness :
  ipmitool_ok {| ipmitool_ok := true; launched := [] |} = true
  /\ exists (self1 : FanControl.t) (h1 : host),
       FanControl.set_pwm FanControl.init 50 {| ipmitool_ok := true; launched := [] |}
       = Done (self1, h1) tt
       /\ FanControl.set_pwm self1 50 h1 = Done (self1, h1) tt
       /\ List.length (launched h1) = 1%nat.
Proof.
  split; [reflexivity|].
  destruct (set_pwm_twice_writes_at_most_once FanControl.init 50
              {| ipmitool_ok := true; launched := [] |} eq_refl)
    as (self1 & h1 & H1 & H2 & _ & H4).
  exists self1, h1. split; [exact H1|]. split; [exact H2|].
  rewrite H4. reflexivity.
Defined.

(** ** From a percentage to a raw code *)

Lemma raw_code_truncates_below_256 :
  forallb
    (fun m => forallb (fun p => FanControl.raw_code_truncates (Z.of_nat m) (Z.of_nat p))
                      (seq 0 101))
    (seq 1 255)
  = true.
Proof. vm_compute. reflexivity. Qed.

Lemma raw_code_truncates_in_range (pwm_max percent : Z) :
  1 <= pwm_max <= 255 -> 0 <= percent <= 100 ->
  FanControl.raw_code_truncates pwm_max percent = true.
Proof.
  intros Hm Hp.
  pose proof raw_code_truncates_below_256 as H.
  rewrite forallb_forall in H.
  specialize (H (Z.to_nat pwm_max)). rewrite forallb_forall in H.
  specialize (H ltac:(apply in_seq; lia) (Z.to_nat percent) ltac:(apply in_seq; lia)).
  now rewrite !Z2Nat.id in H by lia.
Qed.

(** With the bounds of [FanControl.__init__], one percent of [pwm_max = 64]
    is [0.64]: the code truncates it to [0] and leaves the fans to the
    BIOS, where rounding to the nearest code would command the code [1]. *)
Lemma set_fan_speed_does_not_round :
  let h := {| ipmitool_ok := true; launched := [] |} in
  FanControl.raw_code 64 1 = Ok 0
  /\ FanControl.spec_raw_code 64 1 = 1
  /\ FanControl.set_fan_speed FanControl.init 1 h
     <> FanControl.set_pwm (FanControl.with_fan_speed FanControl.init 1)
          (FanControl.spec_raw_code (FanControl.pwm_max FanControl.init) 1) h.
Proof.
  cbv zeta. split; [vm_compute; reflexivity|]. split; [reflexivity|].
  vm_compute. discriminate.
Qed.

(** C5, as the code has it.  For every percent in [0..100],
    [set_fan_speed(percent)] records the percentage, converts it to the raw
    code [int(percent * (float(pwm_max) / 100))], the binary64 product
    truncated toward zero and not rounded to the nearest code, and hands
    exactly that code to [set_pwm].  For [pwm_max] in [1..255] the code is
    the integer quotient [percent * pwm_max / 100] or one less, and with
    [pwm_max = 64] it is that quotient. *)
Theorem set_fan_speed_truncates (self : FanControl.t) (percent : Z) (h : host) :
  0 <= percent <= 100 ->
  1 <= FanControl.pwm_max self <= 255 ->
  exists code : Z,
    FanControl.raw_code (FanControl.pwm_max self) percent = Ok code
    /\ FanControl.set_fan_speed self percent h
       = FanControl.set_pwm (FanControl.with_fan_speed self percent) code h
    /\ percent * FanControl.pwm_max self / 100 - 1 <= code
         <= percent * FanControl.pwm_max self / 100
    /\ (FanControl.pwm_max self = 64 -> code = percent * 64 / 100).
Proof.
  intros Hp Hm.
  pose proof (raw_code_truncates_in_range _ _ Hm Hp) as H.
  unfold FanControl.raw_code_truncates in H.
  unfold FanControl.set_fan_speed.
  cbn [FanControl.with_fan_speed FanControl.pwm_max].
  destruct (FanControl.raw_code (FanControl.pwm_max self) percent) as [code|e];
    [|discriminate].
  apply andb_prop in H. destruct H as [H H64].
  apply andb_prop in H. destruct H as [Hlo Hhi].
  exists code. split; [reflexivity|]. split; [reflexivity|].
  split; [lia|].
  intros E. rewrite E in H64. cbn in H64. lia.
Qed.

Lemma set_fan_speed_truncates_witness :
  0 <= 99 <= 100
  /\ 1 <= FanControl.pwm_max FanControl.init <= 255
  /\ exists code : Z,
       FanControl.raw_code (FanControl.pwm_max FanControl.init) 99 = Ok code
       /\ (FanControl.pwm_max FanControl.init = 64 -> code = 99 * 64 / 100).
Proof.
  split; [lia|]. split; [cbn; lia|].
  destruct (set_fan_speed_truncates FanControl.init 99
              {| ipmitool_ok := true; launched := [] |}
              ltac:(lia) ltac:(cbn; lia))
    as (code & H1 & _ & _ & H4).
  exists code. split; [exact H1|exact H4].
Defined.

(** ** The sampling pass *)

Lemma fold_max_shift (l : list Z) (a x : Z) :
  fold_right Z.max (Z.max a x) l = Z.max x (fold_right Z.max a l).
Proof. induction l as [|y l IH]; cbn; [lia|rewrite IH; lia]. Qed.

(** The loop that keeps the larger of the running maximum and the next
    temperature is a fold of [Z.max]. *)
Lemma highest_from (l : list Z) :
  forall a : Z,
    fold_left
      (fun highest_temperature temperature =>
         if temperature >? highest_temperature then temperature
         else highest_temperature) l a
    = fold_right Z.max a l.
Proof.
  induction l as [|x l IH]; intros a; [reflexivity|].
  cbn [fold_left fold_right]. rewrite IH.
  destruct (Z.gtb_spec x a).
  - rewrite <- (fold_max_shift l a x). f_equal. lia.
  - rewrite <- (fold_max_shift l a x). f_equal. lia.
Qed.

Lemma highest_is_fold_max (results : list Z) :
  Smart.highest results = fold_right Z.max 0 results.
Proof. apply highest_from. Qed.

(** The text printed for a device that does not carry the label at all
    reads as the temperature [0]. *)
Lemma temperature_without_label (smart_data : string) :
  search_group "Temperature_Celsius" smart_data = None ->
  Smart.temperature_of smart_data = Ok 0.
Proof.
  intros H. unfold Smart.temperature_of, Smart.get_parameter_from_smart.
  now rewrite H.
Qed.

(** C7.  [get_highest_temperature] reduces the readings of the devices by
    pairwise maximum from the baseline [0]: the readings [40; 55; 30] give
    [55], no reading gives [0], and a pass over devices that all yield a
    temperature returns, and stores, the maximum of [0] and those
    temperatures; over an empty set of devices it returns [0]. *)
Theorem highest_temperature_is_maximum :
  (forall results : list Z, Smart.highest results = fold_right Z.max 0 results)
  /\ Smart.highest [40; 55; 30] = 55
  /\ Smart.highest [] = 0
  /\ (forall (smartctl : string -> string) (self : Smart.t) (temperatures : list Z),
        1 <= Smart.smart_workers self ->
        map_result (Smart.get_temperature smartctl) (Smart.block_devices self)
        = Ok temperatures ->
        exists self' : Smart.t,
          Smart.get_highest_temperature smartctl self
          = Ok (self', fold_right Z.max 0 temperatures)
          /\ Smart.highest_temperature self' = fold_right Z.max 0 temperatures
          /\ Smart.block_devices self' = Smart.block_devices self)
  /\ (forall (smartctl : string -> string) (self : Smart.t),
        1 <= Smart.smart_workers self ->
        Smart.block_devices self = [] ->
        exists self' : Smart.t,
          Smart.get_highest_temperature smartctl self = Ok (self', 0)).
Proof.
  split; [exact highest_is_fold_max|].
  split; [reflexivity|]. split; [reflexivity|]. split.
  - intros smartctl self temperatures Hw Hmap.
    unfold Smart.get_highest_temperature.
    destruct (Z.ltb_spec (Smart.smart_workers self) 1); [lia|].
    rewrite Hmap. cbn [rbind]. rewrite highest_is_fold_max.
    eexists. split; [reflexivity|]. split; reflexivity.
  - intros smartctl self Hw Hnil.
    unfold Smart.get_highest_temperature.
    destruct (Z.ltb_spec (Smart.smart_workers self) 1); [lia|].
    rewrite Hnil. cbn. eexists. reflexivity.
Qed.

Lemma highest_temperature_is_maximum_witness :
  let smartctl := fun device : string =>
    if String.eqb device "/dev/da0"
    then "194 Temperature_Celsius     0x0022   117   097   000    Old_age   Always       -       40 (Min/Max 20/45)"
    else if String.eqb device "/dev/da1"
    then "194 Temperature_Celsius     0x0022   117   097   000    Old_age   Always       -       55 (Min/Max 20/45)"
    else "194 Temperature_Celsius     0x0022   117   097   000    Old_age   Always       -       30 (Min/Max 20/45)" in
  1 <= Smart.smart_workers (Smart.init ["da0"; "da1"; "da2"])
  /\ map_result (Smart.get_temperature smartctl)
       (Smart.block_devices (Smart.init ["da0"; "da1"; "da2"]))
     = Ok [40; 55; 30]
  /\ (exists self' : Smart.t,
        Smart.get_highest_temperature smartctl (Smart.init ["da0"; "da1"; "da2"])
        = Ok (self', 55)
        /\ Smart.highest_temperature self' = 55
        /\ Smart.block_devices self' = ["da0"; "da1"; "da2"])
  /\ (exists self' : Smart.t,
        Smart.get_highest_temperature smartctl (Smart.init []) = Ok (self', 0)).
Proof.
  cbv zeta. split; [cbn; lia|]. split; [vm_compute; reflexivity|]. split.
  - apply (proj1 (proj2 (proj2 (proj2 highest_temperature_is_maximum)))
             _ (Smart.init ["da0"; "da1"; "da2"]) [40; 55; 30]).
    + cbn; lia.
    + vm_compute; reflexivity.
  - apply (proj2 (proj2 (proj2 (proj2 highest_temperature_is_maximum)))
             _ (Smart.init [])).
    + cbn; lia.
    + reflexivity.
Defined.

(** C8.  The text of one device that carries the label
    [Temperature_Celsius] with nothing after it is not read as [0]: both
    column look-ups of [get_parameter_from_smart] fail, the second one
    outside any handler, so [get_temperature] raises [IndexError]; a label
    followed by a word that is not a number raises [ValueError].  The
    exception leaves [get_highest_temperature] although the other devices
    are healthy, and, not being one of those [main] catches, it ends the
    loop without any command to the fans.  Only a text without the label
    reads as [0]. *)
Theorem bare_label_aborts_the_pass :
  Smart.temperature_of "194 Temperature_Celsius" = Raise IndexError
  /\ Smart.temperature_of "194 Temperature_Celsius abc" = Raise ValueError
  /\ Smart.temperature_of "no such attribute" = Ok 0
  /\ Smart.temperature_of Main.healthy_line = Ok 38
  /\ Smart.get_highest_temperature Main.one_bare_label
       (Smart.init ["da0"; "da1"; "da2"])
     = Raise IndexError
  /\ Main.loop 30 (Main.example ["da0"; "da1"; "da2"])
       [{| Main.smartctl := Main.one_bare_label; Main.interrupt := None |}]
     = Main.Crashed (Main.example ["da0"; "da1"; "da2"]) IndexError.
Proof. repeat split; vm_compute; reflexivity. Qed.

(** ** Shutdown *)

(** The handler ends the process with status [1], whatever [set_pwm]
    does, and leaves the chassis as [set_pwm(pwm_safety)] leaves it. *)
Lemma shutdown_exits (s : Main.state) :
  Main.shutdown s =
  Main.Exited
    (Main.with_chassis s
       (state_of (FanControl.set_pwm (Main.chassis s)
                    (FanControl.pwm_safety (Main.chassis s)) (Main.machine s))))
    1.
Proof.
  unfold Main.shutdown, FanControl.set_pwm.
  destruct (negb _); [destruct (ipmitool_ok (Main.machine s))|]; reflexivity.
Qed.

Lemma loop_app (polling_interval : Q) (before after : list Main.tick) :
  forall s : Main.state,
    Main.loop polling_interval s (before ++ after)%list =
    match Main.loop polling_interval s before with
    | Main.Running s' => Main.loop polling_interval s' after
    | f => f
    end.
Proof.
  induction before as [|tk before IH]; intros s; [reflexivity|].
  cbn [app Main.loop].
  destruct (Main.body polling_interval s tk) as [s' []|s' []];
    try reflexivity; try apply IH; now rewrite shutdown_exits.
Qed.



(** * Further properties *)



(** ** More on the control law *)

Lemma run_cons (self : PID.t) (x : Z) (inputs : list Z) :
  PID.run self (x :: inputs) = PID.run (fst (PID.update self x)) inputs.
Proof. reflexivity. Qed.

Lemma run_keeps_set_point (inputs : list Z) :
  forall self : PID.t, PID.set_point (PID.run self inputs) = PID.set_point self.
Proof.
  induction inputs as [|x inputs IH]; intros self; [reflexivity|].
  rewrite run_cons, IH. reflexivity.
Qed.

Lemma run_keeps_gains (inputs : list Z) :
  forall self : PID.t,
    PID.Kp (PID.run self inputs) = PID.Kp self
    /\ PID.Ki (PID.run self inputs) = PID.Ki self
    /\ PID.Kd (PID.run self inputs) = PID.Kd self.
Proof.
  induction inputs as [|x inputs IH]; intros self; [now repeat split|].
  rewrite run_cons. destruct (IH (fst (PID.update self x))) as (Hp & Hi & Hd).
  rewrite Hp, Hi, Hd. now repeat split.
Qed.

(** The value [update] returns, in terms of the state it leaves. *)
Lemma update_output (self : PID.t) (x : Z) :
  snd (PID.update self x)
  = PID.Kp self * (x - PID.set_point self)
    + PID.Integrator (fst (PID.update self x)) * PID.Ki self
    + PID.Kd self * (x - PID.set_point self + PID.Derivator self).
Proof. reflexivity. Qed.

(** X1.  With gains that are not negative and bounds in order, [update]
    is monotone in the temperature: from the same state a higher reading
    never gives a lower output, nor a lower integrator. *)
Theorem update_output_monotone (self : PID.t) (x y : Z) :
  0 <= PID.Kp self -> 0 <= PID.Ki self -> 0 <= PID.Kd self ->
  PID.Integrator_min self <= PID.Integrator_max self ->
  x <= y ->
  snd (PID.update self x) <= snd (PID.update self y)
  /\ PID.Integrator (fst (PID.update self x)) <= PID.Integrator (fst (PID.update self y)).
Proof.
  intros Hp Hi Hd Hb Hxy.
  assert (HI : PID.Integrator (fst (PID.update self x))
               <= PID.Integrator (fst (PID.update self y))).
  { rewrite !update_integrator. cbv zeta.
    repeat match goal with
           | |- context [?a >? ?b] => destruct (Z.gtb_spec a b)
           | |- context [?a <? ?b] => destruct (Z.ltb_spec a b)
           end; lia. }
  split; [|exact HI].
  cbn [PID.update snd fst PID.Integrator] in *.
  apply Z.add_le_mono; [apply Z.add_le_mono|].
  - apply Z.mul_le_mono_nonneg_l; lia.
  - apply Z.mul_le_mono_nonneg_r; [lia|exact HI].
  - apply Z.mul_le_mono_nonneg_l; lia.
Qed.

Lemma integrator_constant_input_clamp (self : PID.t) (x : Z) (n : nat) :
  PID.Integrator_min self <= PID.Integrator self <= PID.Integrator_max self ->
  PID.Integrator (PID.run self (repeat x n))
  = PID.clamp (PID.Integrator self + Z.of_nat n * (x - PID.set_point self))
      (PID.Integrator_min self) (PID.Integrator_max self).
Proof.
  revert self. induction n as [|n IH]; intros self Hb.
  - cbn [repeat PID.run fold_left]. unfold PID.clamp. lia.
  - cbn [repeat]. rewrite run_cons, IH.
    + destruct (update_keeps_configuration self x) as (_ & _ & _ & Hmax & Hmin & Hsp).
      cbv zeta in Hmax, Hmin, Hsp. rewrite Hmax, Hmin, Hsp, update_integrator.
      cbv zeta. unfold PID.clamp.
      set (e := x - PID.set_point self).
      assert (Hk : (0 <= e -> 0 <= Z.of_nat n * e) /\ (e <= 0 -> Z.of_nat n * e <= 0)) by nia.
      replace (Z.of_nat (S n) * e) with (e + Z.of_nat n * e) by lia.
      repeat match goal with
             | |- context [?a >? ?b] => destruct (Z.gtb_spec a b)
             | |- context [?a <? ?b] => destruct (Z.ltb_spec a b)
             end; lia.
    + destruct (update_keeps_configuration self x) as (_ & _ & _ & Hmax & Hmin & _).
      cbv zeta in Hmax, Hmin. rewrite Hmax, Hmin.
      apply update_integrator_bounded. lia.
Qed.

(** X3.  Once the controller has been fed the set point at least once
    (from an integrator within its bounds), error and derivator are [0],
    the integrator has not moved, and the next update at the set point
    returns the integral term alone, with zero P and D terms. *)
Theorem update_at_set_point (self : PID.t) (n : nat) :
  PID.Integrator_min self <= PID.Integrator self <= PID.Integrator_max self ->
  let settled := PID.run self (repeat (PID.set_point self) (S n)) in
  PID.error settled = 0
  /\ PID.Derivator settled = 0
  /\ PID.Integrator settled = PID.Integrator self
  /\ snd (PID.update settled (PID.set_point self)) = PID.Integrator self * PID.Ki self
  /\ PID.P_value (fst (PID.update settled (PID.set_point self))) = Some 0
  /\ PID.D_value (fst (PID.update settled (PID.set_point self))) = Some 0.
Proof.
  intros Hb settled.
  assert (HI : PID.Integrator settled = PID.Integrator self).
  { unfold settled. rewrite integrator_constant_input_clamp by exact Hb.
    unfold PID.clamp. lia. }
  assert (Hsp : PID.set_point settled = PID.set_point self)
    by apply run_keeps_set_point.
  destruct (run_keeps_bounds (repeat (PID.set_point self) (S n)) self) as [Hmax Hmin].
  fold settled in Hmax, Hmin.
  assert (Hlast : settled
                  = fst (PID.update (PID.run self (repeat (PID.set_point self) n))
                           (PID.set_point self))).
  { unfold settled. rewrite <- run_snoc, <- repeat_cons. reflexivity. }
  assert (He : PID.error settled = 0).
  { rewrite Hlast. cbn [PID.update fst PID.error].
    rewrite run_keeps_set_point. apply Z.sub_diag. }
  assert (Hd : PID.Derivator settled = 0).
  { rewrite Hlast. cbn [PID.update fst PID.Derivator].
    rewrite run_keeps_set_point. apply Z.sub_diag. }
  split; [exact He|]. split; [exact Hd|]. split; [exact HI|].
  assert (HI' : PID.Integrator (fst (PID.update settled (PID.set_point self)))
                = PID.Integrator self).
  { rewrite update_integrator. cbv zeta. rewrite Hsp, Hmax, Hmin, HI.
    repeat match goal with
           | |- context [?a >? ?b] => destruct (Z.gtb_spec a b)
           | |- context [?a <? ?b] => destruct (Z.ltb_spec a b)
           end; lia. }
  destruct (run_keeps_gains (repeat (PID.set_point self) (S n)) self) as (_ & HKi & _).
  fold settled in HKi.
  split.
  { rewrite update_output, HI', Hsp, Hd, HKi, Z.sub_diag. lia. }
  cbn [PID.update fst PID.P_value PID.D_value].
  rewrite Hsp, Hd, Z.sub_diag.
  split; f_equal; lia.
Qed.


(** ** More on the highest temperature *)

Lemma fold_max_permutation (l l' : list Z) :
  Permutation l l' -> fold_right Z.max 0 l = fold_right Z.max 0 l'.
Proof.
  induction 1 as [|x l l' _ IH|x y l|l l' l'' _ IH1 _ IH2]; cbn [fold_right].
  - reflexivity.
  - now rewrite IH.
  - lia.
  - now rewrite IH1.
Qed.

(** X4.  The highest temperature does not depend on the order in which
    the pool hands back the readings of the devices. *)
Theorem highest_ignores_order (results results' : list Z) :
  Permutation results results' ->
  Smart.highest results = Smart.highest results'.
Proof.
  intros H. rewrite !highest_is_fold_max. now apply fold_max_permutation.
Qed.

Lemma fold_max_bounds (l : list Z) :
  0 <= fold_right Z.max 0 l
  /\ (forall t, In t l -> t <= fold_right Z.max 0 l)
  /\ (fold_right Z.max 0 l = 0 \/ In (fold_right Z.max 0 l) l).
Proof.
  induction l as [|x l (H0 & Hub & Hin)]; cbn [fold_right In].
  - split; [lia|]. split; [intros t []|now left].
  - split; [lia|]. split.
    + intros t [->|Ht]; [lia|]. specialize (Hub t Ht). lia.
    + destruct (Z.max_spec x (fold_right Z.max 0 l)) as [[_ ->]|[_ ->]].
      * destruct Hin as [E|Hin]; [now left|right; now right].
      * right. now left.
Qed.

(** X5.  The highest temperature is never negative, is at least every
    reading, and is [0] or one of the readings; readings that are all at
    most [0] give [0]. *)
Theorem highest_is_least_bound_from_zero (results : list Z) :
  0 <= Smart.highest results
  /\ (forall t, In t results -> t <= Smart.highest results)
  /\ (Smart.highest results = 0 \/ In (Smart.highest results) results)
  /\ ((forall t, In t results -> t <= 0) -> Smart.highest results = 0).
Proof.
  rewrite highest_is_fold_max.
  destruct (fold_max_bounds results) as (H0 & Hub & Hin).
  repeat split; try assumption.
  intros Hneg. destruct Hin as [E|Hin]; [exact E|].
  specialize (Hneg _ Hin). lia.
Qed.



(** ** Numerals: [int(str(n))] *)

Lemma uint_value_of_lu (u : Decimal.uint) :
  forall d' : Decimal.uint,
    uint_value (Z.of_N (DecimalPos.Unsigned.of_lu d')) u
    = Z.of_N (DecimalPos.Unsigned.of_lu (Decimal.revapp u d')).
Proof.
  induction u; intros d'; cbn [uint_value Decimal.revapp]; [reflexivity|..];
    rewrite <- IHu; f_equal; cbn [DecimalPos.Unsigned.of_lu]; lia.
Qed.

Lemma uint_value_to_uint (p : positive) : uint_value 0 (Pos.to_uint p) = Z.pos p.
Proof.
  change 0 with (Z.of_N (DecimalPos.Unsigned.of_lu Decimal.Nil)).
  rewrite uint_value_of_lu.
  change (Decimal.revapp (Pos.to_uint p) Decimal.Nil) with (Decimal.rev (Pos.to_uint p)).
  rewrite <- DecimalPos.Unsigned.of_uint_alt, DecimalPos.Unsigned.of_to. reflexivity.
Qed.

Lemma parse_digits_uint (u : Decimal.uint) :
  forall (acc : Z) (after_digit : bool),
    u <> Decimal.Nil \/ after_digit = true ->
    parse_digits (NilEmpty.string_of_uint u) acc after_digit = Some (uint_value acc u).
Proof.
  induction u; intros acc b H;
    [destruct H as [H|H]; [congruence|subst; reflexivity]|..];
    cbn [NilEmpty.string_of_uint parse_digits uint_value];
    match goal with
    | |- context [digit_of ?c] => change (digit_of c) with (Some (Z.of_nat (nat_of_ascii c) - 48))
    end; cbn [nat_of_ascii]; rewrite IHu by (now right); reflexivity.
Qed.

Lemma lstrip_no_space (s : string) : no_space s = true -> lstrip s = s.
Proof.
  destruct s as [|c s]; [reflexivity|]. cbn [no_space lstrip]. intros H.
  apply andb_prop in H. destruct H as [H _]. apply negb_true_iff in H. now rewrite H.
Qed.

Lemma rstrip_no_space (s : string) : no_space s = true -> rstrip s = s.
Proof.
  induction s as [|c s IH]; [reflexivity|]. cbn [no_space rstrip]. intros H.
  apply andb_prop in H. destruct H as [Hc Hs]. apply negb_true_iff in Hc.
  rewrite (IH Hs), Hc. now destruct s.
Qed.

Lemma int_of_digits (u : Decimal.uint) :
  u <> Decimal.Nil ->
  int_of_str (NilEmpty.string_of_uint u) = Ok (uint_value 0 u).
Proof.
  intros Hu. unfold int_of_str.
  rewrite lstrip_no_space, rstrip_no_space by apply no_space_uint.
  pose proof (parse_digits_uint u 0 false (or_introl Hu)) as H.
  destruct u; try congruence; cbn [NilEmpty.string_of_uint] in *; now rewrite H.
Qed.

Lemma int_of_minus_digits (u : Decimal.uint) :
  u <> Decimal.Nil ->
  int_of_str (String "-" (NilEmpty.string_of_uint u)) = Ok (- uint_value 0 u).
Proof.
  intros Hu. unfold int_of_str.
  rewrite lstrip_no_space, rstrip_no_space
    by (change (no_space (String "-" ?s)) with (no_space s); apply no_space_uint).
  now rewrite (parse_digits_uint u 0 false (or_introl Hu)).
Qed.

(** [int(str(n))] is [n]. *)
Lemma int_of_str_of_Z (n : Z) : int_of_str (str_of_Z n) = Ok n.
Proof.
  unfold str_of_Z, NilZero.string_of_int, NilZero.string_of_uint.
  destruct n as [|p|p]; cbn [Z.to_int]; [reflexivity| |].
  - pose proof (DecimalPos.Unsigned.to_uint_nonnil p) as Hn.
    destruct (Pos.to_uint p) eqn:E; [congruence|..]; rewrite <- E in *;
      rewrite (int_of_digits _ Hn), uint_value_to_uint; reflexivity.
  - pose proof (DecimalPos.Unsigned.to_uint_nonnil p) as Hn.
    destruct (Pos.to_uint p) eqn:E; [congruence|..]; rewrite <- E in *;
      rewrite (int_of_minus_digits _ Hn), uint_value_to_uint; reflexivity.
Qed.

Lemma str_of_Z_inj (v w : Z) : str_of_Z v = str_of_Z w -> v = w.
Proof.
  intros H. pose proof (int_of_str_of_Z v) as Hv. rewrite H, int_of_str_of_Z in Hv.
  congruence.
Qed.

(** ** The command line, read back *)

Lemma ipmi_cmd_inj (v w : Z) :
  FanControl.ipmi_cmd v = FanControl.ipmi_cmd w -> v = w.
Proof.
  rewrite !ipmi_cmd_words. intros H.
  apply (f_equal (fun l => nth 8 l EmptyString)) in H.
  cbn [nth append] in H. apply str_of_Z_inj. now injection H.
Qed.

(** X10.  Every command [set_pwm] builds has the same twelve words: the
    program, [raw 0x3a 0x01], the CPU zone always at [0x00], the rear zone
    at [0x00] or at the front code, and both front zones at the code of the
    value, which reads back as the value. *)
Theorem ipmi_cmd_shape (value : Z) :
  exists rear front : string,
    FanControl.ipmi_cmd value
    = ["/usr/local/bin/ipmitool"; "raw"; "0x3a"; "0x01";
       "0x00"; "0x00"; rear; "0x00"; front; front; "0x00"; "0x00"]
    /\ front = "0x" ++ str_of_Z value
    /\ (rear = "0x00" \/ rear = front)
    /\ int_of_str (str_of_Z value) = Ok value.
Proof.
  exists ("0x" ++ py_str (FanControl.raw_rear value)), ("0x" ++ str_of_Z value).
  split; [apply ipmi_cmd_words|]. split; [reflexivity|].
  split; [|apply int_of_str_of_Z].
  destruct (Z.lt_ge_cases value 40) as [H|H].
  - left. now rewrite (raw_rear_low _ H).
  - right. now rewrite (raw_rear_high _ H).
Qed.

(** ** Reading the temperature line *)

















(** ** What one call of [set_pwm] can do *)

Lemma set_pwm_cases (self : FanControl.t) (value : Z) (h : host) :
  let v := FanControl.limit self value in
  (FanControl.previous_pwm_value self = v
   /\ FanControl.set_pwm self value h = Done (FanControl.with_pwm_value self v, h) tt)
  \/ (FanControl.previous_pwm_value self <> v /\ ipmitool_ok h = true
      /\ FanControl.set_pwm self value h
         = Done (FanControl.with_previous_pwm_value (FanControl.with_pwm_value self v) v,
                 launch h (FanControl.ipmi_cmd v)) tt)
  \/ (FanControl.previous_pwm_value self <> v /\ ipmitool_ok h = false
      /\ FanControl.set_pwm self value h
         = Raised (FanControl.with_pwm_value self v, h) (SystemExit 1)).
Proof.
  cbv zeta. unfold FanControl.set_pwm.
  cbn [FanControl.with_pwm_value FanControl.previous_pwm_value].
  destruct (Z.eqb_spec (FanControl.previous_pwm_value self) (FanControl.limit self value))
    as [E|E]; cbn [negb]; [now left|right].
  destruct (ipmitool_ok h); [left|right]; now repeat split.
Qed.

(** X12.  Where [ipmitool] cannot be launched, [set_pwm] launches nothing
    and leaves [previous_pwm_value] alone; it stores the limited value and
    raises [SystemExit(1)] when that value differs from the previous one,
    and returns normally when it does not. *)
Theorem set_pwm_without_ipmitool (self : FanControl.t) (value : Z) (h : host) :
  ipmitool_ok h = false ->
  let after := state_of (FanControl.set_pwm self value h) in
  snd after = h
  /\ FanControl.previous_pwm_value (fst after) = FanControl.previous_pwm_value self
  /\ FanControl.pwm_value (fst after) = FanControl.limit self value
  /\ (FanControl.previous_pwm_value self <> FanControl.limit self value ->
      FanControl.set_pwm self value h = Raised after (SystemExit 1))
  /\ (FanControl.previous_pwm_value self = FanControl.limit self value ->
      FanControl.set_pwm self value h = Done after tt).
Proof.
  intros Hno after. subst after.
  destruct (set_pwm_cases self value h) as [[E H]|[(E & Hok & H)|(E & _ & H)]];
    cbv zeta in *; [| congruence |]; rewrite H; cbn [state_of fst snd];
    repeat split; try reflexivity; intros; congruence.
Qed.

Lemma set_pwm_raises_only_exit (self : FanControl.t) (value : Z) (h : host)
    (st : FanControl.t * host) (e : exn) :
  FanControl.set_pwm self value h = Raised st e -> e = SystemExit 1.
Proof.
  destruct (set_pwm_cases self value h) as [[_ H]|[(_ & _ & H)|(_ & _ & H)]];
    cbv zeta in H; rewrite H; congruence.
Qed.

Lemma set_pwm_keeps_fan_speed (self : FanControl.t) (value : Z) (h : host) :
  FanControl.fan_speed (fst (state_of (FanControl.set_pwm self value h)))
  = FanControl.fan_speed self.
Proof.
  destruct (set_pwm_cases self value h) as [[_ H]|[(_ & _ & H)|(_ & _ & H)]];
    cbv zeta in H; rewrite H; reflexivity.
Qed.

(** X13.  [set_fan_speed] always records the percentage and keeps the
    bounds.  When the conversion to a raw code raises (a number too large
    for a float) nothing else changes; otherwise the stored value is the
    limited code, which is [0] or within the bounds. *)
Theorem set_fan_speed_outcome (self : FanControl.t) (percent : Z) (h : host) :
  let after := state_of (FanControl.set_fan_speed self percent h) in
  FanControl.fan_speed (fst after) = percent
  /\ FanControl.pwm_min (fst after) = FanControl.pwm_min self
  /\ FanControl.pwm_max (fst after) = FanControl.pwm_max self
  /\ (forall e : exn,
        FanControl.raw_code (FanControl.pwm_max self) percent = Raise e ->
        FanControl.set_fan_speed self percent h
        = Raised (FanControl.with_fan_speed self percent, h) e)
  /\ (forall code : Z,
        FanControl.raw_code (FanControl.pwm_max self) percent = Ok code ->
        FanControl.pwm_value (fst after) = FanControl.limit self code
        /\ (FanControl.pwm_value (fst after) = 0
            \/ FanControl.pwm_min self <= FanControl.pwm_value (fst after)
               <= FanControl.pwm_max self)).
Proof.
  cbv zeta. unfold FanControl.set_fan_speed.
  cbn [FanControl.with_fan_speed FanControl.pwm_max].
  destruct (FanControl.raw_code (FanControl.pwm_max self) percent) as [code|e].
  - destruct (set_pwm_keeps_bounds (FanControl.with_fan_speed self percent) code h)
      as (Hmin & Hmax & _). cbv zeta in Hmin, Hmax.
    split; [apply set_pwm_keeps_fan_speed|].
    split; [exact Hmin|]. split; [exact Hmax|].
    split; [discriminate|].
    intros c [= <-]. rewrite set_pwm_pwm_value.
    split; [reflexivity|].
    apply (limit_cases (FanControl.with_fan_speed self percent)).
  - cbn [state_of fst].
    split; [reflexivity|]. split; [reflexivity|]. split; [reflexivity|].
    split; [now intros e' [= ->]|discriminate].
Qed.


(** ** Invariants of a run of [main] *)

Section Preservation.

Variable P : FanControl.t * host -> Prop.
Hypothesis P_set_pwm :
  forall (c : FanControl.t) (v : Z) (h : host),
    P (c, h) -> P (state_of (FanControl.set_pwm c v h)).
Hypothesis P_fan_speed :
  forall (c : FanControl.t) (p : Z) (h : host),
    P (c, h) -> P (FanControl.with_fan_speed c p, h).

Lemma set_fan_speed_preserves (c : FanControl.t) (p : Z) (h : host) :
  P (c, h) -> P (state_of (FanControl.set_fan_speed c p h)).
Proof.
  intros H. unfold FanControl.set_fan_speed.
  destruct (FanControl.raw_code _ p).
  - apply P_set_pwm, P_fan_speed, H.
  - apply P_fan_speed, H.
Qed.

Lemma body_preserves (pi : Q) (s : Main.state) (tk : Main.tick) :
  P (fans s) -> P (fans (state_of (Main.body pi s tk))).
Proof.
  intros H. unfold Main.body.
  destruct (Main.interrupted tk Main.WhileSampling); [exact H|].
  destruct (Smart.get_highest_temperature _ _) as [[source t]|e]; [|exact H].
  destruct (PID.update (Main.pid s) t) as [pid fan_speed].
  cbn [Main.chassis Main.machine].
  destruct (Main.interrupted tk Main.BeforeActuation); [exact H|].
  pose proof (set_fan_speed_preserves (Main.chassis s) fan_speed (Main.machine s) H) as H'.
  destruct (FanControl.set_fan_speed _ _ _) as [[c h] []|[c h] e]; cbn [state_of] in H'.
  - destruct (negb _); [exact H'|].
    destruct (Main.interrupted tk Main.WhileSleeping); exact H'.
  - exact H'.
Qed.

Lemma shutdown_preserves (s : Main.state) :
  P (fans s) -> P (fans (Main.final_state (Main.shutdown s))).
Proof.
  intros H. rewrite shutdown_exits. cbn [Main.final_state].
  unfold fans, Main.with_chassis. cbn [Main.chassis Main.machine].
  rewrite <- surjective_pairing. apply P_set_pwm, H.
Qed.

Lemma loop_preserves (pi : Q) (script : list Main.tick) :
  forall s : Main.state,
    P (fans s) -> P (fans (Main.final_state (Main.loop pi s script))).
Proof.
  induction script as [|tk script IH]; intros s H; [exact H|].
  cbn [Main.loop].
  pose proof (body_preserves pi s tk H) as H'.
  destruct (Main.body pi s tk) as [s' []|s' e]; cbn [state_of] in H'.
  - apply IH, H'.
  - destruct e; try exact H'; apply shutdown_preserves, H'.
Qed.

(** What [set_pwm] keeps, a whole run of [main] keeps. *)
Lemma main_preserves (pi : Q) (s : Main.state) (script : list Main.tick) :
  P (fans s) -> P (fans (Main.final_state (Main.main pi s script))).
Proof.
  intros H. unfold Main.main.
  pose proof (P_set_pwm _ (FanControl.pwm_min (Main.chassis s)) _ H) as H'.
  destruct (FanControl.set_pwm _ _ _) as [ch []|ch e]; cbn [state_of] in H'.
  - apply loop_preserves. unfold fans, Main.with_chassis.
    cbn [Main.chassis Main.machine]. now rewrite <- surjective_pairing.
  - assert (Hf : P (fans (Main.with_chassis s ch))).
    { unfold fans, Main.with_chassis. cbn [Main.chassis Main.machine].
      now rewrite <- surjective_pairing. }
    destruct e; exact Hf.
Qed.

(** What [set_pwm] brings about and keeps holds when [main] has ended,
    however the run began. *)
Lemma main_establishes (pi : Q) (s : Main.state) (script : list Main.tick) :
  (forall (c : FanControl.t) (v : Z) (h : host), P (state_of (FanControl.set_pwm c v h))) ->
  P (fans (Main.final_state (Main.main pi s script))).
Proof.
  intros Hest. unfold Main.main.
  pose proof (Hest (Main.chassis s) (FanControl.pwm_min (Main.chassis s)) (Main.machine s))
    as H'.
  destruct (FanControl.set_pwm _ _ _) as [ch []|ch e]; cbn [state_of] in H'.
  - apply loop_preserves. unfold fans, Main.with_chassis.
    cbn [Main.chassis Main.machine]. now rewrite <- surjective_pairing.
  - assert (Hf : P (fans (Main.with_chassis s ch))).
    { unfold fans, Main.with_chassis. cbn [Main.chassis Main.machine].
      now rewrite <- surjective_pairing. }
    destruct e; exact Hf.
Qed.

End Preservation.

(** X15.  However a run of [main] goes and ends, the bounds of the chassis
    are those it started with and the stored duty cycle is [0] or lies
    between [pwm_min] and [pwm_max]. *)
Theorem main_keeps_pwm_within_bounds (pi : Q) (s : Main.state) (script : list Main.tick) :
  let c := Main.chassis (Main.final_state (Main.main pi s script)) in
  FanControl.pwm_min c = FanControl.pwm_min (Main.chassis s)
  /\ FanControl.pwm_max c = FanControl.pwm_max (Main.chassis s)
  /\ FanControl.pwm_safety c = FanControl.pwm_safety (Main.chassis s)
  /\ (FanControl.pwm_value c = 0
      \/ FanControl.pwm_min (Main.chassis s) <= FanControl.pwm_value c
         <= FanControl.pwm_max (Main.chassis s)).
Proof.
  cbv zeta.
  assert (Hconf :
    (fun ch : FanControl.t * host =>
       FanControl.pwm_min (fst ch) = FanControl.pwm_min (Main.chassis s)
       /\ FanControl.pwm_max (fst ch) = FanControl.pwm_max (Main.chassis s)
       /\ FanControl.pwm_safety (fst ch) = FanControl.pwm_safety (Main.chassis s))
      (fans (Main.final_state (Main.main pi s script)))).
  { apply main_preserves.
    - intros c v h (H1 & H2 & H3).
      destruct (set_pwm_keeps_bounds c v h) as (K1 & K2 & K3). cbv zeta in K1, K2, K3.
      rewrite K1, K2, K3. now repeat split.
    - intros c p h H. exact H.
    - now repeat split. }
  cbn [fans fst] in Hconf. destruct Hconf as (H1 & H2 & H3).
  split; [exact H1|]. split; [exact H2|]. split; [exact H3|].
  rewrite <- H1, <- H2.
  apply (main_establishes
           (fun ch : FanControl.t * host =>
              FanControl.pwm_value (fst ch) = 0
              \/ FanControl.pwm_min (fst ch) <= FanControl.pwm_value (fst ch)
                 <= FanControl.pwm_max (fst ch))).
  - intros c v h _.
    destruct (set_pwm_keeps_bounds c v h) as (K1 & K2 & _). cbv zeta in K1, K2.
    rewrite K1, K2, set_pwm_pwm_value. apply limit_cases.
  - intros c p h H. exact H.
  - intros c v h.
    destruct (set_pwm_keeps_bounds c v h) as (K1 & K2 & _). cbv zeta in K1, K2.
    rewrite K1, K2, set_pwm_pwm_value. apply limit_cases.
Qed.

Lemma set_pwm_launches (c : FanControl.t) (v : Z) (h : host) :
  let after := state_of (FanControl.set_pwm c v h) in
  ipmitool_ok (snd after) = ipmitool_ok h
  /\ ((launched (snd after) = launched h
       /\ FanControl.previous_pwm_value (fst after) = FanControl.previous_pwm_value c)
      \/ (ipmitool_ok h = true
          /\ FanControl.previous_pwm_value c <> FanControl.limit c v
          /\ FanControl.previous_pwm_value (fst after) = FanControl.limit c v
          /\ launched (snd after)
             = (launched h ++ [FanControl.ipmi_cmd (FanControl.limit c v)])%list)).
Proof.
  cbv zeta.
  destruct (set_pwm_cases c v h) as [[E H]|[(E & Hok & H)|(E & Hno & H)]];
    cbv zeta in *; rewrite H; cbn [state_of fst snd launch launched ipmitool_ok];
    (split; [reflexivity|]).
  - left. now split.
  - right. now repeat split.
  - left. now split.
Qed.

(** X16.  A run of [main] only adds commands to those already launched;
    each is the command of a value that is [0] or within the bounds; and
    where [ipmitool] cannot be launched none is added. *)
Theorem main_commands_stay_within_bounds (pi : Q) (s : Main.state) (script : list Main.tick) :
  let final := Main.final_state (Main.main pi s script) in
  ipmitool_ok (Main.machine final) = ipmitool_ok (Main.machine s)
  /\ exists more : list (list string),
       launched (Main.machine final) = (launched (Main.machine s) ++ more)%list
       /\ (ipmitool_ok (Main.machine s) = false -> more = [])
       /\ Forall (command_within (FanControl.pwm_min (Main.chassis s))
                                 (FanControl.pwm_max (Main.chassis s))) more.
Proof.
  cbv zeta.
  set (lo := FanControl.pwm_min (Main.chassis s)).
  set (hi := FanControl.pwm_max (Main.chassis s)).
  set (ok := ipmitool_ok (Main.machine s)).
  set (base := launched (Main.machine s)).
  assert (H :
    (fun ch : FanControl.t * host =>
       FanControl.pwm_min (fst ch) = lo /\ FanControl.pwm_max (fst ch) = hi
       /\ ipmitool_ok (snd ch) = ok
       /\ exists more : list (list string),
            launched (snd ch) = (base ++ more)%list
            /\ (ok = false -> more = [])
            /\ Forall (command_within lo hi) more)
      (fans (Main.final_state (Main.main pi s script)))).
  { apply main_preserves.
    - intros c v h (Hlo & Hhi & Hok & more & Hl & Hno & Hall).
      cbn [fst snd] in Hlo, Hhi, Hok, Hl.
      destruct (set_pwm_keeps_bounds c v h) as (K1 & K2 & _). cbv zeta in K1, K2.
      destruct (set_pwm_launches c v h) as (Kok & [[Kl _]|(Kt & _ & _ & Kl)]);
        rewrite K1, K2, Kok; repeat (split; [assumption|]).
      + exists more. rewrite Kl. now repeat split.
      + exists (more ++ [FanControl.ipmi_cmd (FanControl.limit c v)])%list.
        rewrite Kl, Hl, app_assoc. split; [reflexivity|]. split.
        * intros Hf. congruence.
        * apply Forall_app. split; [exact Hall|]. constructor; [|constructor].
          exists (FanControl.limit c v). split; [reflexivity|].
          rewrite <- Hlo, <- Hhi. apply limit_cases.
    - intros c p h H. exact H.
    - cbn [fans fst snd]. repeat (split; [reflexivity|]).
      exists []. rewrite app_nil_r. now repeat split. }
  cbn [fans fst snd] in H. destruct H as (_ & _ & Hok & more & Hl & Hno & Hall).
  split; [exact Hok|]. exists more. now repeat split.
Qed.




(** ** How the process ends *)

Lemma loop_exit_status (pi : Q) (script : list Main.tick) :
  forall s : Main.state,
    Main.exit_status (Main.loop pi s script) = None
    \/ Main.exit_status (Main.loop pi s script) = Some 1.
Proof.
  induction script as [|tk script IH]; intros s; [now left|].
  cbn [Main.loop].
  destruct (Main.body pi s tk) as [s' []|s' e]; [apply IH|].
  destruct e; try (right; reflexivity); rewrite shutdown_exits; now right.
Qed.

Lemma main_exit_status (pi : Q) (s : Main.state) (script : list Main.tick) :
  Main.exit_status (Main.main pi s script) = None
  \/ Main.exit_status (Main.main pi s script) = Some 1.
Proof.
  unfold Main.main.
  destruct (FanControl.set_pwm _ _ _) as [ch []|ch e] eqn:E.
  - apply loop_exit_status.
  - apply set_pwm_raises_only_exit in E. subst e. now right.
Qed.

Lemma third_words_raises (lines : list string) :
  forall (devices : list string) (e : exn),
    Smart.third_words lines devices = Raise e -> e = IndexError.
Proof.
  induction lines as [|line lines IH]; intros devices e; cbn [Smart.third_words];
    [discriminate|].
  unfold py_index.
  destruct (_ || _); cbn [rbind]; [congruence|].
  destruct (nth_error _ _); cbn [rbind]; [apply IH|congruence].
Qed.

Lemma get_temp_source_raises (config : Config.t) (geom : option string) (e : exn) :
  Program.get_temp_source config geom = Raise e ->
  e = SystemExit 1 \/ e = IndexError.
Proof.
  unfold Program.get_temp_source, Smart.new, Smart.get_block_devices.
  destruct geom as [stdout|]; cbn [rbind]; [|intros [= <-]; now left].
  destruct (Smart.third_words _ _) eqn:E; cbn [rbind]; [discriminate|].
  intros [= <-]. right. eapply third_words_raises, E.
Qed.

(** X21.  The process never exits with status [0].  A lock held by another
    instance ends it with [sys.exit(-1)] before anything reaches the fans;
    any other failure to lock is ignored and the program runs as with the
    lock; otherwise it runs on or exits with [1]. *)
Theorem program_never_exits_with_zero
    (lock : Program.lock_attempt) (config : Config.t) (geom : option string)
    (h : host) (script : list Main.tick) :
  let r := Program.run lock config geom h script in
  Program.exit_status r <> Some 0
  /\ (lock = Program.Busy ->
      Program.exit_status r = Some (-1) /\ Program.machine_of r = h)
  /\ (lock <> Program.Busy ->
      Program.exit_status r = None \/ Program.exit_status r = Some 1)
  /\ (Program.run Program.OtherError config geom h script
      = Program.run Program.Acquired config geom h script).
Proof.
  cbv zeta.
  assert (Hmain : Program.exit_status (Program.main config geom h script) = None
                  \/ Program.exit_status (Program.main config geom h script) = Some 1).
  { unfold Program.main.
    destruct (Program.get_temp_source config geom) as [src|e] eqn:E.
    - cbn [Program.exit_status]. apply main_exit_status.
    - right. destruct (get_temp_source_raises _ _ _ E) as [->| ->]; reflexivity. }
  split; [|split; [|split]].
  - destruct lock; cbn [Program.run Program.exit_status];
      try discriminate; destruct Hmain as [-> | ->]; discriminate.
  - intros ->. now split.
  - intros Hl. destruct lock; [exact Hmain|contradiction|exact Hmain].
  - reflexivity.
Qed.

(** X20.  An exception other than [KeyboardInterrupt] and [SystemExit]
    ([IndexError] or [ValueError] from a temperature line, [OverflowError]
    from the conversion of the percentage) ends the loop where it was
    raised: [set_pwm(pwm_safety)] is not called, the fans are left as the
    tick had them. *)
Theorem other_exceptions_skip_the_safety_speed
    (pi : Q) (s s1 s2 : Main.state) (before after : list Main.tick)
    (tk : Main.tick) (e : exn) :
  Main.loop pi s before = Main.Running s1 ->
  Main.body pi s1 tk = Raised s2 e ->
  e = IndexError \/ e = ValueError \/ e = OverflowError ->
  Main.loop pi s (before ++ tk :: after)%list = Main.Crashed s2 e
  /\ (Main.machine s2 = Main.machine s1
      \/ exists percent : Z,
           fans s2 = state_of (FanControl.set_fan_speed (Main.chassis s1) percent
                                 (Main.machine s1))).
Proof.
  intros Hrun Hbody He. split.
  - rewrite loop_app, Hrun. cbn [Main.loop]. rewrite Hbody.
    destruct He as [->|[->| ->]]; reflexivity.
  - revert Hbody. unfold Main.body.
    destruct (Main.interrupted tk Main.WhileSampling); [intros [= <- _]; now left|].
    destruct (Smart.get_highest_temperature _ _) as [[source t]|e'];
      [|intros [= <- _]; now left].
    destruct (PID.update (Main.pid s1) t) as [pid fan_speed].
    cbn [Main.chassis Main.machine].
    destruct (Main.interrupted tk Main.BeforeActuation); [intros [= <- _]; now left|].
    destruct (FanControl.set_fan_speed _ _ _) as [[c h] []|[c h] e'] eqn:E.
    + destruct (negb _); [|destruct (Main.interrupted tk Main.WhileSleeping)];
        try discriminate; intros [= <- _]; right; exists fan_speed; now rewrite E.
    + intros [= <- _]. right. exists fan_speed. now rewrite E.
Qed.


(** ** The start of [main] *)

(** X14.  Where [ipmitool] runs, [main] enters the loop with the fans at
    [pwm_min], or handed to the BIOS when [pwm_min] is above [pwm_max],
    having launched one command for it unless that was already the previous
    value; controller and temperature source are untouched. *)
Theorem main_starts_at_pwm_min (pi : Q) (s : Main.state) (script : list Main.tick) :
  ipmitool_ok (Main.machine s) = true ->
  let c := Main.chassis s in
  let start := if FanControl.pwm_min c <=? FanControl.pwm_max c
               then FanControl.pwm_min c else 0 in
  exists s' : Main.state,
    Main.main pi s script = Main.loop pi s' script
    /\ Main.main pi s [] = Main.Running s'
    /\ FanControl.pwm_value (Main.chassis s') = start
    /\ FanControl.previous_pwm_value (Main.chassis s') = start
    /\ launched (Main.machine s')
       = (launched (Main.machine s)
          ++ (if FanControl.previous_pwm_value c =? start then []
              else [FanControl.ipmi_cmd start]))%list
    /\ Main.pid s' = Main.pid s
    /\ Main.temp_source s' = Main.temp_source s.
Proof.
  intros Hok c start.
  assert (Hlimit : FanControl.limit c (FanControl.pwm_min c) = start).
  { subst start. unfold FanControl.limit.
    destruct (Z.gtb_spec (FanControl.pwm_min c) (FanControl.pwm_max c)),
             (Z.leb_spec (FanControl.pwm_min c) (FanControl.pwm_max c)); try lia.
    - destruct (Z.ltb_spec (FanControl.pwm_max c) (FanControl.pwm_min c)); [reflexivity|lia].
    - destruct (Z.ltb_spec (FanControl.pwm_min c) (FanControl.pwm_min c)); [lia|reflexivity]. }
  unfold Main.main. fold c.
  destruct (set_pwm_cases c (FanControl.pwm_min c) (Main.machine s))
    as [[E H]|[(E & _ & H)|(_ & Hno & _)]]; cbv zeta in *; [| |congruence];
    rewrite H; rewrite Hlimit in *; eexists; (split; [reflexivity|]);
    (split; [reflexivity|]); cbn [Main.with_chassis Main.chassis Main.machine fst snd
                                    Main.pid Main.temp_source
                                    FanControl.with_pwm_value
                                    FanControl.with_previous_pwm_value
                                    FanControl.pwm_value FanControl.previous_pwm_value
                                    launch launched].
  - rewrite E, Z.eqb_refl, List.app_nil_r. now repeat split.
  - destruct (Z.eqb_spec (FanControl.previous_pwm_value c) start); [contradiction|].
    now repeat split.
Qed.

(** ** The controller inside the loop *)

Lemma highest_temperature_nonneg (smartctl : string -> string) (self self' : Smart.t) (t : Z) :
  Smart.get_highest_temperature smartctl self = Ok (self', t) -> 0 <= t.
Proof.
  unfold Smart.get_highest_temperature.
  destruct (_ <? 1); [discriminate|].
  destruct (map_result _ _) as [results|e]; cbn [rbind]; [|discriminate].
  intros [= _ <-]. rewrite highest_is_fold_max.
  exact (proj1 (fold_max_bounds results)).
Qed.

Lemma body_feeds_controller (pi : Q) (s : Main.state) (tk : Main.tick) :
  let s' := state_of (Main.body pi s tk) in
  Main.pid s' = Main.pid s
  \/ exists t : Z, 0 <= t /\ Main.pid s' = fst (PID.update (Main.pid s) t).
Proof.
  cbv zeta. unfold Main.body.
  destruct (Main.interrupted tk Main.WhileSampling); [now left|].
  destruct (Smart.get_highest_temperature _ _) as [[source t]|e] eqn:E; [|now left].
  apply highest_temperature_nonneg in E.
  right. exists t. split; [exact E|].
  destruct (PID.update (Main.pid s) t) as [pid fan_speed].
  cbn [Main.chassis Main.machine fst].
  destruct (Main.interrupted tk Main.BeforeActuation); [reflexivity|].
  destruct (FanControl.set_fan_speed _ _ _) as [[c h] []|[c h] e']; [|reflexivity].
  destruct (negb _); [reflexivity|].
  destruct (Main.interrupted tk Main.WhileSleeping); reflexivity.
Qed.

Lemma loop_feeds_controller (pi : Q) (script : list Main.tick) :
  forall s : Main.state,
  exists inputs : list Z,
    Main.pid (Main.final_state (Main.loop pi s script)) = PID.run (Main.pid s) inputs
    /\ (List.length inputs <= List.length script)%nat
    /\ Forall (fun t => 0 <= t) inputs.
Proof.
  induction script as [|tk script IH]; intros s.
  - exists []. repeat split; [apply Nat.le_refl|constructor].
  - cbn [Main.loop].
    assert (Hstop : forall s' : Main.state,
              s' = state_of (Main.body pi s tk) ->
              exists inputs : list Z,
                Main.pid s' = PID.run (Main.pid s) inputs
                /\ (List.length inputs <= List.length (tk :: script))%nat
                /\ Forall (fun t => 0 <= t) inputs).
    { intros s' ->.
      destruct (body_feeds_controller pi s tk) as [E|(t & Ht & E)]; cbv zeta in E.
      - exists []. rewrite E. repeat split; [cbn; lia|constructor].
      - exists [t]. rewrite E. repeat split; [cbn; lia|now constructor]. }
    destruct (Main.body pi s tk) as [s' []|s' e] eqn:Eb.
    + destruct (IH s') as (inputs & Hrun & Hlen & Hpos).
      destruct (body_feeds_controller pi s tk) as [E|(t & Ht & E)];
        rewrite Eb in E; cbv zeta in E; cbn [state_of] in E.
      * exists inputs. rewrite Hrun, E. repeat split; [cbn; lia|exact Hpos].
      * exists (t :: inputs). rewrite Hrun, E.
        repeat split; [cbn; lia|now constructor].
    + assert (Hs : Main.pid (Main.final_state (Main.shutdown s')) = Main.pid s')
        by (now rewrite shutdown_exits).
      destruct (Hstop s' eq_refl) as (inputs & Hrun & Hlen & Hpos).
      exists inputs. split; [|now split].
      destruct e; cbn [Main.final_state]; try exact Hrun; now rewrite Hs.
Qed.

Lemma main_feeds_controller (pi : Q) (s : Main.state) (script : list Main.tick) :
  exists inputs : list Z,
    Main.pid (Main.final_state (Main.main pi s script)) = PID.run (Main.pid s) inputs
    /\ (List.length inputs <= List.length script)%nat
    /\ Forall (fun t => 0 <= t) inputs.
Proof.
  unfold Main.main.
  destruct (FanControl.set_pwm _ _ _) as [ch []|ch e].
  - apply (loop_feeds_controller pi script (Main.with_chassis s ch)).
  - exists []. split; [now destruct e|]. split; [cbn; lia|constructor].
Qed.

Lemma run_integrator_bounded (inputs : list Z) (self : PID.t) :
  PID.Integrator_min self <= PID.Integrator self <= PID.Integrator_max self ->
  PID.Integrator_min self <= PID.Integrator (PID.run self inputs)
    <= PID.Integrator_max self.
Proof.
  destruct inputs as [|x inputs] using rev_ind; [easy|].
  intros Hb. rewrite run_snoc.
  destruct (run_keeps_bounds inputs self) as [Hmax Hmin].
  rewrite <- Hmax, <- Hmin. apply update_integrator_bounded. lia.
Qed.

(** X19.  From an integrator within its bounds, a run of [main] leaves
    the integrator within the same bounds, and bounds and set point as they
    were. *)
Theorem main_keeps_integrator_within_bounds
    (pi : Q) (s : Main.state) (script : list Main.tick) :
  PID.Integrator_min (Main.pid s) <= PID.Integrator (Main.pid s)
    <= PID.Integrator_max (Main.pid s) ->
  let pid := Main.pid (Main.final_state (Main.main pi s script)) in
  PID.Integrator_min (Main.pid s) <= PID.Integrator pid <= PID.Integrator_max (Main.pid s)
  /\ PID.Integrator_min pid = PID.Integrator_min (Main.pid s)
  /\ PID.Integrator_max pid = PID.Integrator_max (Main.pid s)
  /\ PID.set_point pid = PID.set_point (Main.pid s).
Proof.
  intros Hb pid. subst pid.
  destruct (main_feeds_controller pi s script) as (inputs & -> & _ & _).
  destruct (run_keeps_bounds inputs (Main.pid s)) as [Hmax Hmin].
  split; [now apply run_integrator_bounded|].
  split; [exact Hmin|]. split; [exact Hmax|apply run_keeps_set_point].
Qed.

(** ** Listing the devices *)

Lemma py_index_nth {A : Type} (l : list A) (n : nat) :
  py_index l (Z.of_nat n)
  = match nth_error l n with Some a => Ok a | None => Raise IndexError end.
Proof.
  unfold py_index. cbv zeta.
  assert (E : (Z.of_nat n <? 0) = false) by (apply Z.ltb_ge; lia).
  rewrite !E, Nat2Z.id. cbn [orb].
  destruct (Z.leb_spec (Z.of_nat (List.length l)) (Z.of_nat n)).
  - assert (Hn : nth_error l n = None) by (apply nth_error_None; lia).
    now rewrite Hn.
  - reflexivity.
Qed.

Lemma py_index_third {A : Type} (l : list A) :
  py_index l 2
  = match nth_error l 2 with Some a => Ok a | None => Raise IndexError end.
Proof. exact (py_index_nth l 2). Qed.

Lemma set_add_in (d x : string) (l : list string) :
  In x (set_add d l) <-> x = d \/ In x l.
Proof.
  unfold set_add. destruct (existsb (String.eqb d) l) eqn:E.
  - split; [now right|]. intros [->|H]; [|exact H].
    apply existsb_exists in E. destruct E as (y & Hy & Ey).
    apply String.eqb_eq in Ey. now subst.
  - rewrite in_app_iff. cbn [In]. intuition.
Qed.

Lemma set_add_nodup (d : string) (l : list string) : NoDup l -> NoDup (set_add d l).
Proof.
  intros H. unfold set_add. destruct (existsb (String.eqb d) l) eqn:E; [exact H|].
  apply NoDup_app; [exact H|repeat constructor; intros []|].
  intros x Hx [Ex|[]]. subst x.
  assert (Ht : existsb (String.eqb d) l = true)
    by (apply existsb_exists; exists d; split; [exact Hx|apply String.eqb_refl]).
  congruence.
Qed.

Lemma set_discard_in (d x : string) (l : list string) :
  In x (set_discard d l) <-> x <> d /\ In x l.
Proof.
  unfold set_discard. rewrite filter_In, negb_true_iff, String.eqb_neq. intuition.
Qed.

Lemma third_words_ok (lines : list string) :
  forall devices found : list string,
    Smart.third_words lines devices = Ok found ->
    (forall d : string,
       In d found <->
       In d devices
       \/ exists line : string, In line lines /\ nth_error (split_ws line) 2 = Some d)
    /\ (NoDup devices -> NoDup found).
Proof.
  induction lines as [|line lines IH]; intros devices found; cbn [Smart.third_words].
  - intros [= <-]. split; [|easy]. intros d. split; [now left|].
    intros [H|(l & [] & _)]. exact H.
  - rewrite (py_index_third (split_ws line)).
    destruct (nth_error (split_ws line) 2) as [w|] eqn:Ew; cbn [rbind]; [|discriminate].
    intros H. destruct (IH _ _ H) as [Hin Hnd]. split.
    + intros d. rewrite Hin, set_add_in. cbn [In]. split.
      * intros [[->|Hd]|(l & Hl & Hw)]; [right; exists line|now left|right; exists l];
          auto.
      * intros [Hd|(l & [<-|Hl] & Hw)]; [left; now right| |right; now exists l].
        left. left. congruence.
    + intros Hd. apply Hnd, set_add_nodup, Hd.
Qed.

Lemma third_words_short_line (lines : list string) :
  forall devices : list string,
    (exists line : string, In line lines /\ (List.length (split_ws line) < 3)%nat) ->
    Smart.third_words lines devices = Raise IndexError.
Proof.
  induction lines as [|line lines IH]; intros devices (l & Hl & Hshort); [destruct Hl|].
  cbn [Smart.third_words]. rewrite (py_index_third (split_ws line)).
  destruct (nth_error (split_ws line) 2) as [w|] eqn:Ew; cbn [rbind]; [|reflexivity].
  destruct Hl as [<-|Hl].
  - assert (Hn : nth_error (split_ws line) 2 = None) by (apply nth_error_None; lia).
    congruence.
  - apply IH. now exists l.
Qed.

Lemma get_block_devices_lists (stdout : string) (self found : Smart.t) :
  Smart.get_block_devices (Some stdout) self = Ok found ->
  (forall d : string,
     In d (Smart.block_devices found) <-> d <> Smart.boot_device self /\ listed stdout d)
  /\ NoDup (Smart.block_devices found)
  /\ Smart.boot_device found = Smart.boot_device self
  /\ Smart.smart_workers found = Smart.smart_workers self.
Proof.
  unfold Smart.get_block_devices.
  destruct (Smart.third_words (splitlines stdout) []) as [devices|e] eqn:E;
    cbn [rbind]; [|discriminate].
  intros [= <-]. cbn [Smart.block_devices Smart.boot_device Smart.smart_workers].
  destruct (third_words_ok _ _ _ E) as [Hin Hnd].
  split; [|split; [|now split]].
  - intros d. rewrite set_discard_in, Hin. unfold listed. cbn [In]. intuition.
  - unfold set_discard. apply NoDup_filter, Hnd. constructor.
Qed.

(** X8.  [get_block_devices] ends the program with status [1] when
    [geom] cannot be launched, raises [IndexError] when a line has less
    than three words, and otherwise yields, without repetition, exactly
    the third words of the lines other than [boot_device]. *)
Theorem get_block_devices_is_the_set_of_third_words
    (geom : option string) (self : Smart.t) :
  (geom = None -> Smart.get_block_devices geom self = Raise (SystemExit 1))
  /\ (forall stdout : string,
        geom = Some stdout ->
        (exists line : string,
           In line (splitlines stdout) /\ (List.length (split_ws line) < 3)%nat) ->
        Smart.get_block_devices geom self = Raise IndexError)
  /\ (forall (stdout : string) (found : Smart.t),
        geom = Some stdout ->
        Smart.get_block_devices geom self = Ok found ->
        (forall d : string,
           In d (Smart.block_devices found)
           <-> d <> Smart.boot_device self /\ listed stdout d)
        /\ NoDup (Smart.block_devices found)).
Proof.
  split; [now intros ->|]. split.
  - intros stdout -> Hshort. unfold Smart.get_block_devices.
    now rewrite (third_words_short_line _ _ Hshort).
  - intros stdout found -> H.
    destruct (get_block_devices_lists _ _ _ H) as (Hin & Hnd & _). now split.
Qed.

(** X9.  [get_temp_source] writes the configured boot device into the
    object after the devices have been listed: the device left out is
    [ada0], the value of the constructor, and a configured boot device
    other than [ada0] that [geom] lists stays among the devices sampled. *)
Theorem configured_boot_device_is_not_excluded
    (config : Config.t) (stdout : string) (source : Smart.t) :
  Program.get_temp_source config (Some stdout) = Ok source ->
  Smart.boot_device source = Config.boot_device config
  /\ Smart.smart_workers source = Config.smart_workers config
  /\ (forall d : string,
        In d (Smart.block_devices source) <-> d <> "ada0" /\ listed stdout d)
  /\ (Config.boot_device config <> "ada0" ->
      listed stdout (Config.boot_device config) ->
      In (Config.boot_device config) (Smart.block_devices source)).
Proof.
  unfold Program.get_temp_source, Smart.new.
  destruct (Smart.get_block_devices (Some stdout) (Smart.init [])) as [found|e] eqn:E;
    cbn [rbind]; [|discriminate].
  intros [= <-]. cbn [Smart.boot_device Smart.smart_workers Smart.block_devices].
  destruct (get_block_devices_lists _ _ _ E) as (Hin & _).
  cbn [Smart.init Smart.boot_device] in Hin.
  split; [reflexivity|]. split; [reflexivity|]. split; [exact Hin|].
  intros Hne Hl. apply Hin. now split.
Qed.

(** ** Round trips *)

(** X11.  Two values with the same command are the same value. *)
Theorem ipmi_cmd_determines_value (v w : Z) :
  FanControl.ipmi_cmd v = FanControl.ipmi_cmd w -> v = w.
Proof. apply ipmi_cmd_inj. Qed.

(** X2.  Fed the same reading [n] times from an integrator within its
    bounds, the integrator is the start plus [n] times the error, clamped
    between the bounds: it winds up to the bound and stays there. *)
Theorem integrator_under_constant_input (self : PID.t) (x : Z) (n : nat) :
  PID.Integrator_min self <= PID.Integrator self <= PID.Integrator_max self ->
  PID.Integrator (PID.run self (repeat x n))
  = PID.clamp (PID.Integrator self + Z.of_nat n * (x - PID.set_point self))
      (PID.Integrator_min self) (PID.Integrator_max self).
Proof. apply integrator_constant_input_clamp. Qed.

(** X18.  The controller a run of [main] leaves is the one it started
    with after updates with readings that are not negative, at most one per
    tick. *)
Theorem controller_is_fed_maxima (pi : Q) (s : Main.state) (script : list Main.tick) :
  exists inputs : list Z,
    Main.pid (Main.final_state (Main.main pi s script)) = PID.run (Main.pid s) inputs
    /\ (List.length inputs <= List.length script)%nat
    /\ Forall (fun t => 0 <= t) inputs.
Proof. apply main_feeds_controller. Qed.

(** ** Instances *)

Lemma update_output_monotone_witness :
  snd (PID.update (PID.set_target_value (PID.init 2 1 0 0 0 100 (-100)) 35) 40)
  <= snd (PID.update (PID.set_target_value (PID.init 2 1 0 0 0 100 (-100)) 35) 45).
Proof.
  apply (update_output_monotone
           (PID.set_target_value (PID.init 2 1 0 0 0 100 (-100)) 35) 40 45);
    cbn; lia.
Defined.

Lemma integrator_under_constant_input_witness :
  PID.Integrator
    (PID.run (PID.set_target_value (PID.init 2 1 0 0 0 100 (-100)) 35) (repeat 45 30))
  = 100.
Proof.
  rewrite (integrator_under_constant_input
             (PID.set_target_value (PID.init 2 1 0 0 0 100 (-100)) 35) 45 30)
    by (cbn; lia).
  reflexivity.
Defined.

Lemma update_at_set_point_witness :
  snd (PID.update
         (PID.run (PID.init 2 3 1 7 40 100 (-100)) (repeat 0 2)) 0)
  = 120.
Proof.
  pose proof (update_at_set_point (PID.init 2 3 1 7 40 100 (-100)) 1
                ltac:(cbn; lia)) as H.
  cbv zeta in H. exact (proj1 (proj2 (proj2 (proj2 H)))).
Defined.

Lemma highest_ignores_order_witness :
  Smart.highest [40; 55; 30] = Smart.highest [30; 40; 55].
Proof.
  apply (highest_ignores_order [40; 55; 30] [30; 40; 55]).
  apply Permutation_sym, (Permutation_cons_app [40; 55] [] 30). reflexivity.
Defined.


Lemma ipmi_cmd_determines_value_witness :
  FanControl.limit FanControl.init 200 = FanControl.limit FanControl.init 64.
Proof.
  apply (ipmi_cmd_determines_value
           (FanControl.limit FanControl.init 200) (FanControl.limit FanControl.init 64)).
  reflexivity.
Defined.

Lemma set_pwm_without_ipmitool_witness :
  FanControl.set_pwm FanControl.init 50 {| ipmitool_ok := false; launched := [] |}
  = Raised (state_of (FanControl.set_pwm FanControl.init 50
                        {| ipmitool_ok := false; launched := [] |}))
           (SystemExit 1).
Proof.
  apply (set_pwm_without_ipmitool FanControl.init 50
           {| ipmitool_ok := false; launched := [] |} eq_refl).
  cbn. discriminate.
Defined.


Lemma other_exceptions_skip_the_safety_speed_witness :
  Main.loop 30 (Main.example ["da0"; "da1"])
    ([] ++ {| Main.smartctl := Main.one_bare_label; Main.interrupt := None |} :: [])%list
  = Main.Crashed (Main.example ["da0"; "da1"]) IndexError.
Proof.
  apply (other_exceptions_skip_the_safety_speed 30
           (Main.example ["da0"; "da1"]) (Main.example ["da0"; "da1"])
           (Main.example ["da0"; "da1"]) [] []
           {| Main.smartctl := Main.one_bare_label; Main.interrupt := None |}
           IndexError).
  - reflexivity.
  - vm_compute. reflexivity.
  - now left.
Defined.

Lemma main_starts_at_pwm_min_witness :
  exists s' : Main.state,
    Main.main 30 (Main.example ["da0"]) [] = Main.Running s'
    /\ FanControl.pwm_value (Main.chassis s') = 1
    /\ launched (Main.machine s') = [FanControl.ipmi_cmd 1].
Proof.
  destruct (main_starts_at_pwm_min 30 (Main.example ["da0"]) [] eq_refl)
    as (s' & _ & Hrun & Hv & _ & Hl & _).
  exists s'. split; [exact Hrun|]. split; [exact Hv|exact Hl].
Defined.

Lemma main_keeps_integrator_within_bounds_witness :
  let s := Main.example ["da0"] in
  let script :=
    [{| Main.smartctl := fun _ => Main.healthy_line; Main.interrupt := None |}] in
  PID.Integrator_min (Main.pid s)
    <= PID.Integrator (Main.pid (Main.final_state (Main.main 30 s script)))
    <= PID.Integrator_max (Main.pid s).
Proof.
  intros s script.
  exact (proj1 (main_keeps_integrator_within_bounds 30 s script
                  ltac:(cbn; lia))).
Defined.

Lemma configured_boot_device_is_not_excluded_witness :
  let config :=
    {| Config.polling_interval := 30; Config.target_temperature := 35;
       Config.P := 2; Config.I := 1; Config.D := 0; Config.D_amplification := 0;
       Config.I_start := 0; Config.I_max := 100; Config.I_min := -100;
       Config.device_filter := "da"; Config.boot_device := "ada1";
       Config.smart_workers := 4;
       Config.pwm_min := 1; Config.pwm_max := 64; Config.pwm_safety := 32 |} in
  let stdout := "ada1p1  OK  ada1" ++ String "010" ("da0p1  OK  da0" ++ String "010" "") in
  exists source : Smart.t,
    Program.get_temp_source config (Some stdout) = Ok source
    /\ In "ada1" (Smart.block_devices source).
Proof.
  intros config stdout.
  assert (H : Program.get_temp_source config (Some stdout)
              = Ok {| Smart.block_devices := ["ada1"; "da0"];
                      Smart.device_filter := "da"; Smart.boot_device := "ada1";
                      Smart.highest_temperature := 0; Smart.smart_workers := 4 |})
    by (vm_compute; reflexivity).
  eexists. split; [exact H|].
  apply (configured_boot_device_is_not_excluded config stdout _ H).
  - discriminate.
  - exists "ada1p1  OK  ada1". split; [now left|reflexivity].
Defined.
